(** * The Xenopoulos dialectical engine: a shallow embedding

    Two incarnations of the engine are embedded:
    - [Main]: class [XenopoulosGeneticHistoricalSystem] of
      [xenopoulos_system.py];
    - [Denoise]: class [XenopoulosSystem] of
      [InteractiveQuantumDenoisingAndXenopoulos.py].

    Python floats are read as real numbers: rounding and overflow are not
    modelled.  The one place where the engines can leave the finite reals,
    the division by [aufhebung_threshold], is modelled as numpy evaluates it
    (a float64 divided by zero is an infinity or a nan, not an exception).
    The process-wide numpy generator is an explicit state threaded through
    every method that draws from it. *)

From Stdlib Require Import String Reals Lra Lia ZArith Bool List.
Import ListNotations.
Open Scope R_scope.

(** ** numpy and Python primitives *)

(** [a > b] and [a < b] on floats. *)
Definition gtb (a b : R) : bool := if Rlt_dec b a then true else false.
Definition ltb (a b : R) : bool := if Rlt_dec a b then true else false.
Definition geb (a b : R) : bool := if Rle_dec b a then true else false.

Infix ">?" := gtb (at level 70, no associativity) : R_scope.
Infix "<?" := ltb (at level 70, no associativity) : R_scope.
Infix ">=?" := geb (at level 70, no associativity) : R_scope.

(** [np.clip(x, lo, hi)] is [minimum(maximum(x, lo), hi)]. *)
Definition np_clip (x lo hi : R) : R := Rmin (Rmax x lo) hi.

Definition np_sum (l : list R) : R := fold_right Rplus 0 l.

(** [np.mean]; every call site guards against the empty list. *)
Definition np_mean (l : list R) : R := np_sum l / INR (length l).

(** [np.std]: population standard deviation. *)
Definition np_var (l : list R) : R :=
  np_mean (map (fun x => (x - np_mean l) * (x - np_mean l)) l).
Definition np_std (l : list R) : R := sqrt (np_var l).

(** A Python bool used as a number, as in [np.mean([abs(x) > 0.8 ...])]. *)
Definition b2r (b : bool) : R := if b then 1 else 0.

(** The slice [l[-n:]]: the last [n] elements, the whole list when it is
    shorter. *)
Definition last_n {X : Type} (n : nat) (l : list X) : list X :=
  skipn (length l - n) l.

(** [np.polyfit(xs, ys, 1)[0]]: slope of the least-squares line. *)
Definition np_polyfit_slope (xs ys : list R) : R :=
  let n := INR (length xs) in
  let sx := np_sum xs in
  let sy := np_sum ys in
  let sxy := np_sum (map (fun p => fst p * snd p) (combine xs ys)) in
  let sxx := np_sum (map (fun x => x * x) xs) in
  (n * sxy - sx * sy) / (n * sxx - sx * sx).

(** [range(n)] as floats. *)
Definition range_R (n : nat) : list R := map INR (seq 0 n).

(** [x ** y] for a base that is never negative at its call sites and a
    positive exponent: [0 ** y] is [0]. *)
Definition np_power (x y : R) : R :=
  if Rlt_dec 0 x then Rpower x y else 0.

(** [int(h * num / den)]: truncation toward zero. *)
Definition int_scale (h num den : Z) : Z := Z.quot (h * num) den.

(** A float64 that may have left the finite reals. *)
Inductive npfloat : Type :=
| Finite (r : R)
| PosInf
| NegInf
| NaN.

(** [x / y] on float64 with a finite numerator and denominator; a zero
    denominator is the positive zero the caller passed in. *)
Definition np_divide (x y : R) : npfloat :=
  if Req_dec_T y 0 then
    if Rlt_dec 0 x then PosInf
    else if Rlt_dec x 0 then NegInf
    else NaN
  else Finite (x / y).

(** [a * r] for a finite [r]. *)
Definition np_scale (a : npfloat) (r : R) : npfloat :=
  match a with
  | Finite x => Finite (x * r)
  | PosInf => if Rlt_dec 0 r then PosInf else if Rlt_dec r 0 then NegInf else NaN
  | NegInf => if Rlt_dec 0 r then NegInf else if Rlt_dec r 0 then PosInf else NaN
  | NaN => NaN
  end.

(** [np.clip] of such a value between finite bounds: a finite result, or
    [None] for nan. *)
Definition np_clip_f (a : npfloat) (lo hi : R) : option R :=
  match a with
  | Finite x => Some (np_clip x lo hi)
  | PosInf => Some hi
  | NegInf => Some lo
  | NaN => None
  end.

(** [v > c] where [v] may be nan: a comparison with nan is false. *)
Definition gtb_f (v : option R) (c : R) : bool :=
  match v with Some x => x >? c | None => false end.
Definition ltb_f (v : option R) (c : R) : bool :=
  match v with Some x => x <? c | None => false end.

(** [np.mean] of values that may be nan. *)
Fixpoint all_finite (l : list (option R)) : option (list R) :=
  match l with
  | [] => Some []
  | None :: _ => None
  | Some x :: l' =>
      match all_finite l' with Some xs => Some (x :: xs) | None => None end
  end.
Definition np_mean_f (l : list (option R)) : option R :=
  match all_finite l with Some xs => Some (np_mean xs) | None => None end.

(** ** The numpy generator *)

(** [np.random.seed(s)] replaces the global generator state by the one the
    seed determines; [np.random.rand()] draws from [0,1) and
    [np.random.randn()] from the standard normal, and both advance it. *)
Class RandomState (G : Type) : Type := {
  np_random_seed : Z -> G;
  np_random_rand : G -> R * G;
  np_random_randn : G -> R * G
}.

(** Computations that draw from the generator. *)
Definition Rand (G X : Type) : Type := G -> X * G.

Definition ret {G X : Type} (x : X) : Rand G X := fun g => (x, g).
Definition bind {G X Y : Type} (m : Rand G X) (k : X -> Rand G Y) : Rand G Y :=
  fun g => let (x, g') := m g in k x g'.

Notation "x <- m ;; k" := (bind m (fun x => k))
  (at level 61, m at next level, right associativity).

(** A [for] loop whose body draws from the generator. *)
Fixpoint for_each {G S X : Type} (xs : list X) (body : S -> X -> Rand G S)
  (s : S) : Rand G S :=
  match xs with
  | [] => ret s
  | x :: xs' => s' <- body s x ;; for_each xs' body s'
  end.

(** Python exceptions the embedded code can raise. *)
Inductive exn : Type :=
| AttributeError (attribute : string)
| ValueError (message : string).

Inductive result (X : Type) : Type :=
| Ok (x : X)
| Raise (e : exn).
Arguments Ok {X} x.
Arguments Raise {X} e.

(** The ten stages. *)
Inductive stage : Type :=
| tau0 | tau1 | tau2 | tau3 | tau4 | tau5 | tau6 | tau7 | tau8 | tau9.

Definition stage_eq_dec (a b : stage) : {a = b} + {a <> b}.
Proof. decide equality. Defined.

Definition stage_index (s : stage) : Z :=
  match s with
  | tau0 => 0 | tau1 => 1 | tau2 => 2 | tau3 => 3 | tau4 => 4
  | tau5 => 5 | tau6 => 6 | tau7 => 7 | tau8 => 8 | tau9 => 9
  end%Z.

(** The stage indices as floats, for [np.std] and [np.mean]. *)
Definition stage_values (l : list stage) : list R :=
  map (fun s => IZR (stage_index s)) l.

(** ** Further primitives, for the reports *)

(** [np.max] and [np.min]; on an empty array numpy raises, which the
    callers below model before calling. *)
Definition np_max (l : list R) : R :=
  match l with
  | [] => 0
  | x :: xs => fold_left Rmax xs x
  end.


(** Reductions over values that may be nan: one nan makes the result nan. *)
Definition np_max_f (l : list (option R)) : option R :=
  match all_finite l with Some xs => Some (np_max xs) | None => None end.

(** [np.sum(array <test>)]: the number of entries passing a comparison; a
    nan passes none. *)
Definition count_f (test : R -> bool) (l : list (option R)) : nat :=
  length (filter (fun v => match v with Some x => test x | None => false end) l).

(** [needle in hay] on Python strings. *)
Fixpoint str_in (needle hay : string) : bool :=
  if String.prefix needle hay then true
  else match hay with
       | EmptyString => false
       | String _ rest => str_in needle rest
       end.

(** The exception of an index past the end of a list. *)
Inductive lookup_error : Type :=
| IndexError (message : string).

(** [np.random.normal(loc, scale)]: the location plus the scale times a
    standard normal draw; a negative scale raises [ValueError]. *)
Definition np_random_normal {G : Type} `{RandomState G} (loc scale : R)
  : Rand G (result R) :=
  if scale <? 0 then ret (Raise (ValueError "scale < 0"))
  else z <- np_random_randn ;; ret (Ok (loc + scale * z)).

(** ** The main engine: [XenopoulosGeneticHistoricalSystem] *)

Module Main.

(** [self.stages] and [self.phases]: the display names (transliterated). *)
Definition stages (s : stage) : string :=
  match s with
  | tau0 => "tau0: Coherence"
  | tau1 => "tau1: First Anomaly"
  | tau2 => "tau2: Anomaly Repetition"
  | tau3 => "tau3: Meaning Incompatibility"
  | tau4 => "tau4: System Saturation"
  | tau5 => "tau5: Qualitative Leap"
  | tau6 => "tau6: Paradoxical Transcendence"
  | tau7 => "tau7: False Stability"
  | tau8 => "tau8: Permanent Dialectics"
  | tau9 => "tau9: Meta-Transcendence"
  end.

Definition phases (p : nat) : string :=
  match p with
  | 0%nat => "Stability Phase"
  | 1%nat => "Anomaly Phase"
  | 2%nat => "Contradiction Phase"
  | 3%nat => "Crisis Phase"
  | 4%nat => "Transition Phase"
  | 5%nat => "Paradox Phase"
  | _ => "Meta-Stability Phase"
  end.

Inductive paradox_type : Type :=
| SIMULTANEOUS_EXTREMITY
| FALSE_STABILITY
| META_PARADOX.

Record paradox_event : Type := {
  pe_step : Z;
  pe_type : paradox_type;
  pe_A_value : R;
  pe_anti_A_value : R;
  pe_paradox_score : R;
  pe_stage : string
}.

Inductive risk_level : Type := CRITICAL | HIGH.

Record risk_event : Type := {
  re_step : Z;
  re_XEPTQLRI : option R;
  re_true_XEPTQLRI : option R;
  re_tension : R;
  re_stage : string;
  re_risk : risk_level;
  re_phase : string;
  re_paradox_score : R
}.

(** The attributes of a fully initialised object that the engine reads or
    writes.  [creation_time], [system_id] and [metadata] only label the
    object and are left out. *)
Record system : Type := {
  A : R;
  horizon : Z;
  aufhebung_threshold : R;
  volatility : R;
  system_name : string;
  anti_A : R;
  history_A : list R;
  history_anti_A : list R;
  history_tension : list R;
  history_XEPTQLRI : list (option R);
  history_true_XEPTQLRI : list (option R);
  history_stages : list stage;
  history_true_stages : list stage;
  history_paradox_scores : list R;
  risk_events : list risk_event;
  paradox_events : list paradox_event;
  phase_history : list nat
}.

(** The outcomes of the diagnosis tree. *)
Inductive true_state : Type :=
| INSUFFICIENT_DATA
| PERMANENT_PARADOXICAL_TRANSCENDENCE
| INTERMITTENT_PARADOXICAL_STATE
| SIMULTANEOUS_EXTREMITY_REGIME
| PERMANENT_TRANSCENDENCE
| CHAOTIC_DIALECTICS
| FALSE_STABILITY_REGIME
| TRUE_STABILITY
| DYNAMIC_EQUILIBRIUM.

(** [_calculate_paradox_score], lines 184-208. *)
Definition extremity_score (state anti_state : R) : R :=
  Rmin (Rabs state) (Rabs anti_state).

Definition symmetry_score (state anti_state : R) : R :=
  1 - Rabs (Rabs state - Rabs anti_state).

Definition tension_paradox (state anti_state tension : R) : R :=
  if (extremity_score state anti_state >? 0.7) && (tension <? 0.3)
  then 0.5 else 0.

Definition persistence_score (self : system) : R :=
  if (10 <? length (history_A self))%nat then
    let recent_states := last_n 10 (history_A self) in
    let recent_anti := last_n 10 (history_anti_A self) in
    if (np_mean (map Rabs recent_states) >? 0.7)
       && (np_mean (map Rabs recent_anti) >? 0.7)
    then 0.3 else 0
  else 0.

Definition _calculate_paradox_score (self : system)
  (state anti_state tension : R) : R :=
  let paradox_score :=
    extremity_score state anti_state * 0.4 +
    symmetry_score state anti_state * 0.3 +
    tension_paradox state anti_state tension * 0.2 +
    persistence_score self * 0.1 in
  np_clip paradox_score 0 1.

(** [_enhanced_stage_classification], lines 210-243. *)
Definition permanent_dialectics (recent_stages : list stage) : bool :=
  (4 <=? length (nodup stage_eq_dec recent_stages))%nat
  && (np_std (stage_values recent_stages) >? 1.5).

Definition tension_band (self : system) (tension_score : R) : stage :=
  if tension_score <? 0.15 then tau0
  else if tension_score <? 0.35 then tau1
  else if tension_score <? 0.55 then tau2
  else if tension_score <? 0.75 then tau3
  else if tension_score <? aufhebung_threshold self then tau4
  else tau5.

(** The guards of the two rules that come first (lines 215-216 and
    219-220). *)
Definition paradox_rule (tension_score current_A current_anti_A : R) : bool :=
  (Rabs current_A >? 0.8) && (Rabs current_anti_A >? 0.8)
  && (tension_score <? 0.4).

Definition false_stability_rule (tension_score current_A current_anti_A : R)
  : bool :=
  (tension_score <? 0.3)
  && ((Rabs current_A >? 0.7) || (Rabs current_anti_A >? 0.7)).

Definition _enhanced_stage_classification (self : system)
  (tension_score current_A current_anti_A paradox_score : R) : stage :=
  if paradox_rule tension_score current_A current_anti_A
  then tau6
  else if false_stability_rule tension_score current_A current_anti_A
  then tau7
  else if (20 <? length (history_stages self))%nat
          && permanent_dialectics (last_n 20 (history_stages self))
  then tau8
  else if (paradox_score >? 0.8) && (tension_score >? 0.6)
  then tau9
  else tension_band self tension_score.

(** The trend tiers of [_calculate_enhanced_XEPTQLRI], lines 249-253; the
    branch taken is kept apart from the factor it assigns. *)
Inductive trend_branch : Type :=
| trend_default
| trend_above_01
| trend_above_03.

Definition trend_tier (historical_trend : R) : trend_branch :=
  if historical_trend >? 0.1 then trend_above_01
  else if historical_trend >? 0.3 then trend_above_03
  else trend_default.

Definition trend_factor_of (b : trend_branch) : R :=
  match b with
  | trend_default => 1.0
  | trend_above_01 => 1.5
  | trend_above_03 => 2.0
  end.

Definition trend_factor (historical_trend : R) : R :=
  trend_factor_of (trend_tier historical_trend).

Definition paradox_factor (tension paradox_score : R) : R :=
  if paradox_score >? 0.7 then
    if tension <? 0.3 then 1.8 else 2.0
  else 1.0.

Definition extremity_multiplier (current_A current_anti_A : R) : R :=
  if (Rabs current_A >? 0.8) && (Rabs current_anti_A >? 0.8)
  then 1.5 else 1.0.

(** [_detect_paradox_events], lines 416-451: the events one step appends. *)
Definition _detect_paradox_events (step : Z)
  (current_A current_anti_A paradox_score : R) (stage_idx : stage)
  : list paradox_event :=
  let ev ty := {| pe_step := step; pe_type := ty; pe_A_value := current_A;
                  pe_anti_A_value := current_anti_A;
                  pe_paradox_score := paradox_score;
                  pe_stage := stages stage_idx |} in
  (if (Rabs current_A >? 0.85) && (Rabs current_anti_A >? 0.85)
   then [ev SIMULTANEOUS_EXTREMITY] else [])
  ++ (if stage_eq_dec stage_idx tau7 then [ev FALSE_STABILITY] else [])
  ++ (if paradox_score >? 0.9 then [ev META_PARADOX] else []).

(** [_determine_true_system_state], lines 558-599. *)
Definition _determine_true_system_state (self : system) : true_state :=
  if (length (history_A self) <? 100)%nat then INSUFFICIENT_DATA
  else
    let recent_A := last_n 100 (history_A self) in
    let recent_anti := last_n 100 (history_anti_A self) in
    let recent_paradox := last_n 100 (history_paradox_scores self) in
    let recent_stages := last_n 100 (history_stages self) in
    let time_at_extremes :=
      np_mean (map (fun x => b2r (Rabs x >? 0.8)) recent_A) in
    let simultaneous_extremes :=
      np_mean (map (fun ab => b2r ((Rabs (fst ab) >? 0.8)
                                   && (Rabs (snd ab) >? 0.8)))
                   (combine recent_A recent_anti)) in
    let paradox_persistence :=
      np_mean (map (fun p => b2r (p >? 0.7)) recent_paradox) in
    let stage_variability := np_std (stage_values recent_stages) in
    if paradox_persistence >? 0.6 then
      if time_at_extremes >? 0.7 then PERMANENT_PARADOXICAL_TRANSCENDENCE
      else INTERMITTENT_PARADOXICAL_STATE
    else if simultaneous_extremes >? 0.5 then SIMULTANEOUS_EXTREMITY_REGIME
    else if time_at_extremes >? 0.8 then PERMANENT_TRANSCENDENCE
    else if stage_variability >? 2.0 then CHAOTIC_DIALECTICS
    else if ltb_f (np_mean_f (last_n 100 (history_XEPTQLRI self))) 0.3 then
      if time_at_extremes >? 0.3 then FALSE_STABILITY_REGIME
      else TRUE_STABILITY
    else DYNAMIC_EQUILIBRIUM.

(** The object lines 73-95 of [__init__] assemble, given the value of
    [self.anti_A]: the configuration and empty histories. *)
Definition initialised (A : R) (horizon : Z)
  (aufhebung_threshold volatility : R) (system_name : string) (anti_A : R)
  : system :=
  {| A := A; horizon := horizon;
     aufhebung_threshold := aufhebung_threshold;
     volatility := volatility; system_name := system_name;
     anti_A := anti_A;
     history_A := []; history_anti_A := []; history_tension := [];
     history_XEPTQLRI := []; history_true_XEPTQLRI := [];
     history_stages := []; history_true_stages := [];
     history_paradox_scores := [];
     risk_events := []; paradox_events := []; phase_history := [] |}.


Section Engine.

Context {G : Type} `{RandomState G}.

(** [_enhanced_dialectical_negation], lines 146-166. *)
Definition _enhanced_dialectical_negation (self : system) (state : R)
  : Rand G R :=
  u <- np_random_rand ;;
  let preservation_factor := 0.8 + 0.2 * u in
  let historical_effect :=
    if (0 <? length (history_A self))%nat then
      let recent_mean :=
        np_mean (if (10 <=? length (history_A self))%nat
                 then last_n 10 (history_A self) else history_A self) in
      0.1 * tanh recent_mean
    else 0.0 in
  paradox_feedback <-
    (if (0 <? length (history_paradox_scores self))%nat
        && (np_mean (last_n 5 (history_paradox_scores self)) >? 0.7)
     then z <- np_random_randn ;; ret (0.05 * z)
     else ret 0.0) ;;
  let enhanced_negation :=
    - state * preservation_factor * (1 + historical_effect + paradox_feedback) in
  z <- np_random_randn ;;
  let stochastic_component := volatility self * 0.1 * z in
  ret (enhanced_negation + stochastic_component).

(** [_dialectical_conjunction_intensity], lines 168-182. *)
Definition _dialectical_conjunction_intensity (self : system)
  (state anti_state : R) : Rand G R :=
  let raw_intensity := Rabs (state * anti_state) in
  complexity_factor <-
    (if (Rabs state >? 0.8) && (Rabs anti_state >? 0.8)
     then z <- np_random_randn ;; ret (1.5 + volatility self * z)
     else z <- np_random_randn ;; ret (1 + volatility self * z)) ;;
  ret (np_clip (raw_intensity * complexity_factor) 0 1).

(** [_calculate_enhanced_XEPTQLRI], lines 245-276; nan is [None]. *)
Definition _calculate_enhanced_XEPTQLRI (self : system)
  (tension historical_trend current_A current_anti_A paradox_score : R)
  : Rand G (option R) :=
  let enhanced_XEPTQLRI :=
    np_divide (tension * trend_factor historical_trend
               * paradox_factor tension paradox_score
               * extremity_multiplier current_A current_anti_A)
              (aufhebung_threshold self) in
  z <- np_random_randn ;;
  let stochastic_factor := 1 + volatility self * 0.3 * z in
  let enhanced_XEPTQLRI := np_scale enhanced_XEPTQLRI stochastic_factor in
  let enhanced_XEPTQLRI :=
    if (50 <? length (history_A self))%nat then
      let recent_extremity :=
        np_mean (map (fun x => b2r (Rabs x >? 0.8))
                     (last_n 50 (history_A self))) in
      if recent_extremity >? 0.7 then np_scale enhanced_XEPTQLRI 1.3
      else enhanced_XEPTQLRI
    else enhanced_XEPTQLRI in
  ret (np_clip_f enhanced_XEPTQLRI 0 3.0).

(** The loop of [simulate_enhanced_historical_process], lines 293-399. *)
Definition phase_boundaries (self : system) : list Z :=
  [ int_scale (horizon self) 20 100;
    int_scale (horizon self) 40 100;
    int_scale (horizon self) 60 100;
    int_scale (horizon self) 75 100;
    int_scale (horizon self) 85 100;
    int_scale (horizon self) 95 100;
    horizon self ].

(** The first boundary above [step], in [enumerate] order. *)
Fixpoint first_phase (step : Z) (p : nat) (boundaries : list Z) : nat :=
  match boundaries with
  | [] => 0%nat
  | boundary :: rest =>
      if (step <? boundary)%Z then p else first_phase step (S p) rest
  end.

Definition phase_pressure (p : nat) : R :=
  match p with
  | 0%nat => 0.02 | 1%nat => 0.05 | 2%nat => 0.10 | 3%nat => 0.15
  | 4%nat => 0.20 | 5%nat => 0.25 | _ => 0.30
  end.

Definition phase_volatility (p : nat) : R :=
  match p with
  | 0%nat => 0.01 | 1%nat => 0.03 | 2%nat => 0.05 | 3%nat => 0.08
  | 4%nat => 0.12 | 5%nat => 0.15 | _ => 0.20
  end.

Definition phase_pattern (p : nat) (step : Z) : R :=
  match p with
  | 0%nat => 0.01 * sin (IZR step * 0.05)
  | 1%nat => 0.02 * sin (IZR step * 0.08)
  | 2%nat => 0.03 * sin (IZR step * 0.12)
  | 3%nat => 0.04 * sin (IZR step * 0.18)
  | 4%nat => 0.05 * sin (IZR step * 0.25)
  | 5%nat => 0.06 * sin (IZR step * 0.35)
  | _ => 0.03 * sin (IZR step * 0.10)
  end.

(** What one pass of the loop appends to the histories. *)
Record step_record : Type := {
  sr_A : R;
  sr_anti_A : R;
  sr_tension : R;
  sr_XEPTQLRI : option R;
  sr_paradox_score : R;
  sr_stage : stage;
  sr_phase : nat
}.

Definition risk_event_of (step : Z) (r : step_record) : list risk_event :=
  if gtb_f (sr_XEPTQLRI r) 0.7 then
    [ {| re_step := step;
         re_XEPTQLRI := sr_XEPTQLRI r;
         re_true_XEPTQLRI := sr_XEPTQLRI r;
         re_tension := sr_tension r;
         re_stage := stages (sr_stage r);
         re_risk := if gtb_f (sr_XEPTQLRI r) 1.0 then CRITICAL else HIGH;
         re_phase := phases (sr_phase r);
         re_paradox_score := sr_paradox_score r |} ]
  else [].

(** Lines 373-399: the paradox events, the appends, the risk event. *)
Definition record_step (self : system) (step : Z) (r : step_record) : system :=
  {| A := A self; horizon := horizon self;
     aufhebung_threshold := aufhebung_threshold self;
     volatility := volatility self; system_name := system_name self;
     anti_A := anti_A self;
     history_A := history_A self ++ [sr_A r];
     history_anti_A := history_anti_A self ++ [sr_anti_A r];
     history_tension := history_tension self ++ [sr_tension r];
     history_XEPTQLRI := history_XEPTQLRI self ++ [sr_XEPTQLRI r];
     history_true_XEPTQLRI := history_true_XEPTQLRI self ++ [sr_XEPTQLRI r];
     history_stages := history_stages self ++ [sr_stage r];
     history_true_stages := history_true_stages self ++ [sr_stage r];
     history_paradox_scores := history_paradox_scores self ++ [sr_paradox_score r];
     risk_events := risk_events self ++ risk_event_of step r;
     paradox_events :=
       paradox_events self
       ++ _detect_paradox_events step (sr_A r) (sr_anti_A r)
            (sr_paradox_score r) (sr_stage r);
     phase_history := phase_history self ++ [sr_phase r] |}.

(** Lines 305-371: one pass of the loop up to the classification, from the
    object and the loop variable [current_A]. *)
Definition compute_step (self : system) (current_A : R) (step : Z)
  : Rand G step_record :=
  let current_phase := first_phase step 0 (phase_boundaries self) in
  let historical_factor := 1 + 0.003 * IZR step in
  negation <- _enhanced_dialectical_negation self current_A ;;
  let current_anti_A := negation * historical_factor in
  current_tension <-
    _dialectical_conjunction_intensity self current_A current_anti_A ;;
  let dialectical_pressure := current_tension * phase_pressure current_phase in
  let historical_trend := phase_pattern current_phase step in
  z <- np_random_randn ;;
  let systemic_noise := phase_volatility current_phase * z in
  let current_A :=
    np_clip (current_A + dialectical_pressure + historical_trend
             + systemic_noise) (-1.2) 1.2 in
  let recent_trend :=
    if (10 <? step)%Z then
      if (10 <=? length (history_tension self))%nat
      then np_polyfit_slope (range_R 10) (last_n 10 (history_tension self))
      else 0
    else 0 in
  let paradox_score :=
    _calculate_paradox_score self current_A current_anti_A current_tension in
  enhanced_XEPTQLRI <-
    _calculate_enhanced_XEPTQLRI self current_tension recent_trend
      current_A current_anti_A paradox_score ;;
  let stage_idx :=
    _enhanced_stage_classification self current_tension current_A
      current_anti_A paradox_score in
  ret {| sr_A := current_A; sr_anti_A := current_anti_A;
         sr_tension := current_tension; sr_XEPTQLRI := enhanced_XEPTQLRI;
         sr_paradox_score := paradox_score; sr_stage := stage_idx;
         sr_phase := current_phase |}.

(** The loop state: the object and the loop variable [current_A]. *)
Definition loop_body (st : system * R) (step : Z) : Rand G (system * R) :=
  r <- compute_step (fst st) (snd st) step ;;
  ret (record_step (fst st) step r, sr_A r).

(** [range(self.horizon)]. *)
Definition steps_of (h : Z) : list Z := map Z.of_nat (seq 0 (Z.to_nat h)).

(** [simulate_enhanced_historical_process], lines 282-414. *)
Definition simulate_enhanced_historical_process (self : system)
  : Rand G system :=
  st <- for_each (steps_of (horizon self)) loop_body (self, A self) ;;
  ret (fst st).

(** [enhanced_analysis_report], lines 478-556.  Of the report dictionary
    the entries kept are the ones the properties below speak of; the other
    metrics and distributions are computed from the same histories.  The
    object is taken to be consistent (one length for all histories, as after
    [reset_system] and any number of simulations): then the only exception
    is [np.max] of an empty array. *)
Record report : Type := {
  total_steps : nat;
  stage_index_now : Z;
  true_system_state : true_state
}.

Definition enhanced_analysis_report (self : system)
  : Rand G (system * result report) :=
  self <-
    (match history_XEPTQLRI self with
     | [] => simulate_enhanced_historical_process self
     | _ :: _ => ret self
     end) ;;
  match history_XEPTQLRI self with
  | [] => ret (self, Raise (ValueError "zero-size array to reduction operation maximum"))
  | _ :: _ =>
      ret (self,
           Ok {| total_steps := length (history_A self);
                 stage_index_now := stage_index (last (history_stages self) tau0);
                 true_system_state := _determine_true_system_state self |})
  end.

(** *** Construction *)

(** The object while [__init__] runs: an attribute is [None] until it has
    been assigned. *)
Record instance : Type := {
  i_A : option R;
  i_horizon : option Z;
  i_aufhebung_threshold : option R;
  i_volatility : option R;
  i_system_name : option string;
  i_history_A : option (list R);
  i_history_paradox_scores : option (list R)
}.

(** [_enhanced_dialectical_negation] on such an object: the attributes are
    looked up in the order the method reads them (lines 155, 160, 164), and
    a missing one raises [AttributeError]. *)
Definition _enhanced_dialectical_negation_getattr (self : instance)
  (state : R) : Rand G (result R) :=
  u <- np_random_rand ;;
  let preservation_factor := 0.8 + 0.2 * u in
  match i_history_A self with
  | None => ret (Raise (AttributeError "history_A"))
  | Some history_A =>
      let historical_effect :=
        if (0 <? length history_A)%nat then
          let recent_mean :=
            np_mean (if (10 <=? length history_A)%nat
                     then last_n 10 history_A else history_A) in
          0.1 * tanh recent_mean
        else 0.0 in
      match i_history_paradox_scores self with
      | None => ret (Raise (AttributeError "history_paradox_scores"))
      | Some history_paradox_scores =>
          paradox_feedback <-
            (if (0 <? length history_paradox_scores)%nat
                && (np_mean (last_n 5 history_paradox_scores) >? 0.7)
             then z <- np_random_randn ;; ret (0.05 * z)
             else ret 0.0) ;;
          let enhanced_negation :=
            - state * preservation_factor
            * (1 + historical_effect + paradox_feedback) in
          match i_volatility self with
          | None => ret (Raise (AttributeError "volatility"))
          | Some volatility =>
              z <- np_random_randn ;;
              let stochastic_component := volatility * 0.1 * z in
              ret (Ok (enhanced_negation + stochastic_component))
          end
      end
  end.

(** The attributes assigned by lines 73-77, when line 82 calls the
    negation: the history lists are assigned only from line 85 on. *)
Definition configured (initial_state_A : R) (historical_horizon : Z)
  (aufhebung_threshold volatility_factor : R) (system_name : string)
  : instance :=
  {| i_A := Some (np_clip initial_state_A 0 1);
     i_horizon := Some historical_horizon;
     i_aufhebung_threshold := Some aufhebung_threshold;
     i_volatility := Some volatility_factor;
     i_system_name := Some system_name;
     i_history_A := None;
     i_history_paradox_scores := None |}.

(** [__init__], lines 49-140. *)
Definition __init__ (initial_state_A : R) (historical_horizon : Z)
  (aufhebung_threshold volatility_factor : R) (system_name : string)
  (seed : option Z) : Rand G (result system) :=
  fun g =>
    let g := match seed with Some s => np_random_seed s | None => g end in
    let A := np_clip initial_state_A 0 1 in
    let self := configured initial_state_A historical_horizon
                  aufhebung_threshold volatility_factor system_name in
    let (negation, g) := _enhanced_dialectical_negation_getattr self A g in
    match negation with
    | Raise e => (Raise e, g)
    | Ok anti_A =>
        (Ok (initialised A historical_horizon aufhebung_threshold
               volatility_factor system_name anti_A), g)
    end.

(** The attributes of a complete object, as [__init__] sees them. *)
Definition instance_of (self : system) : instance :=
  {| i_A := Some (A self);
     i_horizon := Some (horizon self);
     i_aufhebung_threshold := Some (aufhebung_threshold self);
     i_volatility := Some (volatility self);
     i_system_name := Some (system_name self);
     i_history_A := Some (history_A self);
     i_history_paradox_scores := Some (history_paradox_scores self) |}.

(** [quick_analysis], lines 1248-1275: construct, simulate, report. *)
Definition quick_analysis (initial_A : R) (horizon : Z)
  (threshold volatility : R) (name : string) (seed : option Z)
  : Rand G (result (system * report)) :=
  constructed <- __init__ initial_A horizon threshold volatility name seed ;;
  match constructed with
  | Raise e => ret (Raise e)
  | Ok system =>
      system <- simulate_enhanced_historical_process system ;;
      reported <- enhanced_analysis_report system ;;
      match snd reported with
      | Raise e => ret (Raise e)
      | Ok report => ret (Ok (fst reported, report))
      end
  end.

End Engine.



(** *** The rest of the report *)

(** [_calculate_stability_deception_index], lines 453-472. *)
Definition _calculate_stability_deception_index (self : system) : R :=
  if (length (history_XEPTQLRI self) <? 50)%nat then 0.0
  else
    let recent_risk := np_mean_f (last_n 50 (history_XEPTQLRI self)) in
    let recent_A_abs := np_mean (map Rabs (last_n 50 (history_A self))) in
    let recent_anti_abs := np_mean (map Rabs (last_n 50 (history_anti_A self))) in
    if ltb_f recent_risk 0.5 then
      if (recent_A_abs >? 0.7) || (recent_anti_abs >? 0.7)
      then Rmin 1.0 ((recent_A_abs + recent_anti_abs) / 2)
      else 0.0
    else 0.0.

(** The ['metrics'] entry of the report, lines 496-510; the history is not
    empty here (line 498 raises otherwise). *)
Record metrics : Type := {
  mean_XEPTQLRI : option R;
  max_XEPTQLRI : option R;
  min_XEPTQLRI : option R;
  final_XEPTQLRI : option R;
  std_XEPTQLRI : option R;
  mean_tension : R;
  max_tension : R;
  mean_paradox_score : R;
  max_paradox_score : R;
  stability_deception : R;
  permanent_transcendence_score : R;
  simultaneous_extremity_score : R
}.


(** The ['risk_levels'] entry, lines 522-527. *)
Record risk_levels : Type := {
  low : nat;
  medium : nat;
  high : nat;
  extreme : nat
}.

Definition report_risk_levels (self : system) : risk_levels :=
  {| low := count_f (fun x => x <? 0.5) (history_XEPTQLRI self);
     medium := count_f (fun x => (x >=? 0.5) && (x <? 1.0))
                 (history_XEPTQLRI self);
     high := count_f (fun x => (x >=? 1.0) && (x <? 2.0))
               (history_XEPTQLRI self);
     extreme := count_f (fun x => x >=? 2.0) (history_XEPTQLRI self) |}.

(** The stage distribution, lines 539-541: one count per entry of
    [self.stages], in the order of the dictionary. *)
Definition all_stages : list stage :=
  [tau0; tau1; tau2; tau3; tau4; tau5; tau6; tau7; tau8; tau9].

Definition report_stage_distribution (self : system) : list (string * nat) :=
  map (fun idx => (stages idx, count_occ stage_eq_dec (history_stages self) idx))
      all_stages.

(** The ['paradox_analysis'] entry, lines 529-535. *)
Definition paradox_type_eqb (a b : paradox_type) : bool :=
  match a, b with
  | SIMULTANEOUS_EXTREMITY, SIMULTANEOUS_EXTREMITY => true
  | FALSE_STABILITY, FALSE_STABILITY => true
  | META_PARADOX, META_PARADOX => true
  | _, _ => false
  end.

Record paradox_analysis : Type := {
  total_paradox_events : nat;
  simultaneous_extremity_events : nat;
  false_stability_events : nat;
  meta_paradox_events : nat;
  paradox_persistence : R
}.

Definition events_of_type (ty : paradox_type) (self : system) : nat :=
  length (filter (fun e => paradox_type_eqb (pe_type e) ty)
                 (paradox_events self)).

Definition report_paradox_analysis (self : system) : paradox_analysis :=
  {| total_paradox_events := length (paradox_events self);
     simultaneous_extremity_events := events_of_type SIMULTANEOUS_EXTREMITY self;
     false_stability_events := events_of_type FALSE_STABILITY self;
     meta_paradox_events := events_of_type META_PARADOX self;
     paradox_persistence :=
       np_mean (map (fun p => b2r (p >? 0.7)) (history_paradox_scores self)) |}.

(** The value of [report['true_system_state']], a string. *)
Definition true_state_name (s : true_state) : string :=
  match s with
  | INSUFFICIENT_DATA => "INSUFFICIENT_DATA"
  | PERMANENT_PARADOXICAL_TRANSCENDENCE => "PERMANENT_PARADOXICAL_TRANSCENDENCE"
  | INTERMITTENT_PARADOXICAL_STATE => "INTERMITTENT_PARADOXICAL_STATE"
  | SIMULTANEOUS_EXTREMITY_REGIME => "SIMULTANEOUS_EXTREMITY_REGIME"
  | PERMANENT_TRANSCENDENCE => "PERMANENT_TRANSCENDENCE"
  | CHAOTIC_DIALECTICS => "CHAOTIC_DIALECTICS"
  | FALSE_STABILITY_REGIME => "FALSE_STABILITY_REGIME"
  | TRUE_STABILITY => "TRUE_STABILITY"
  | DYNAMIC_EQUILIBRIUM => "DYNAMIC_EQUILIBRIUM"
  end.

(** A recommendation: a fixed text (leading pictograms dropped), or one of
    the two formatted lines with the number it prints. *)
Inductive recommendation : Type :=
| Text (line : string)
| HighParadoxEventCount (events : nat)
| SimultaneousExtremityObserved (score : R).

(** The seven blocks of lines 610-661. *)
Inductive advice : Type :=
| advice_paradoxical_transcendence
| advice_false_stability
| advice_simultaneous_extremity
| advice_extreme_risk
| advice_deception
| advice_true_stability
| advice_dynamic_equilibrium.

Definition advice_lines (a : advice) : list recommendation :=
  match a with
  | advice_paradoxical_transcendence =>
      [Text "IMMEDIATE ATTENTION: System in paradoxical transcendence state";
       Text "Re-evaluate fundamental assumptions about system stability";
       Text "Implement paradoxical stability protocols";
       Text "Monitor for meta-paradox escalation";
       Text "Document all simultaneous extremity events"]
  | advice_false_stability =>
      [Text "CAUTION: System exhibiting false stability characteristics";
       Text "Apparent stability masks underlying extremity";
       Text "Increase monitoring frequency 2x";
       Text "Implement deception detection protocols";
       Text "Review historical patterns for similar episodes"]
  | advice_simultaneous_extremity =>
      [Text "WARNING: Simultaneous extremity regime detected";
       Text "Both A and anti-A operating at extreme values";
       Text "Prepare for potential phase transition";
       Text "Monitor paradox score closely";
       Text "Consider implementing paradox resolution protocols"]
  | advice_extreme_risk =>
      [Text "CRITICAL: Extreme XEPTQLRI values detected";
       Text "System approaching theoretical limits";
       Text "Implement emergency protocols";
       Text "Prepare for qualitative leap";
       Text "Document all parameters for post-transition analysis"]
  | advice_deception =>
      [Text "DECEPTION ALERT: High stability deception index";
       Text "System appears more stable than it actually is";
       Text "Implement truth-revealing protocols";
       Text "Cross-validate with alternative metrics";
       Text "Review with paradox-aware analysis"]
  | advice_true_stability =>
      [Text "System operating in true stability regime";
       Text "Maintain current monitoring protocols";
       Text "Periodic paradox detection checks";
       Text "Document baseline for future comparisons"]
  | advice_dynamic_equilibrium =>
      [Text "System in dynamic equilibrium";
       Text "Continue standard monitoring";
       Text "Watch for paradoxical developments";
       Text "Maintain paradox detection systems"]
  end.

(** The [if]/[elif] chain of lines 610-661. *)
Definition choose_advice (true_state : string) (m : metrics) : advice :=
  if str_in "PARADOXICAL_TRANSCENDENCE" true_state
  then advice_paradoxical_transcendence
  else if str_in "FALSE_STABILITY" true_state
  then advice_false_stability
  else if str_in "SIMULTANEOUS_EXTREMITY" true_state
  then advice_simultaneous_extremity
  else if gtb_f (max_XEPTQLRI m) 2.0
  then advice_extreme_risk
  else if stability_deception m >? 0.5
  then advice_deception
  else if String.eqb true_state "TRUE_STABILITY"
  then advice_true_stability
  else advice_dynamic_equilibrium.

(** [_generate_enhanced_recommendations], lines 601-669, from the three
    entries of the report it reads. *)
Definition _generate_enhanced_recommendations (true_state : string)
  (m : metrics) (p : paradox_analysis) : list recommendation :=
  advice_lines (choose_advice true_state m)
  ++ (if (10 <? total_paradox_events p)%nat
      then [HighParadoxEventCount (total_paradox_events p)] else [])
  ++ (if simultaneous_extremity_score m >? 0.3
      then [SimultaneousExtremityObserved (simultaneous_extremity_score m)]
      else []).


(** *** The closing summary of the simulation *)

(** Lines 408-412 print [self.stages[self.history_stages[-1]]] and
    [self.history_paradox_scores[-1]] once the loop is over: on an empty
    list the index raises. *)
Definition closing_summary (self : system) : stage * R + lookup_error :=
  match rev (history_stages self), rev (history_paradox_scores self) with
  | [], _ => inr (IndexError "list index out of range")
  | _ :: _, [] => inr (IndexError "list index out of range")
  | final_stage :: _, final_score :: _ => inl (final_stage, final_score)
  end.

Section Summary.

Context {G : Type} `{RandomState G}.

(** [simulate_enhanced_historical_process] with its closing summary: the
    loop, then the lookups of lines 411-412. *)
Definition simulate_then_summarise (self : system)
  : Rand G (system + lookup_error) :=
  self <- simulate_enhanced_historical_process self ;;
  match closing_summary self with
  | inl _ => ret (inl self)
  | inr e => ret (inr e)
  end.

End Summary.

End Main.

(** ** The denoising variant: [XenopoulosSystem] *)

Module Denoise.

(** [self.stages]: name, colour and icon (names transliterated). *)
Definition stages (s : stage) : string * string * string :=
  match s with
  | tau0 => ("tau0: Coherence"%string, "#2E8B57"%string, "ok"%string)
  | tau1 => ("tau1: First Anomaly"%string, "#3CB371"%string, "warning"%string)
  | tau2 => ("tau2: Anomaly Repetition"%string, "#FFD700"%string, "repeat"%string)
  | tau3 => ("tau3: Meaning Incompatibility"%string, "#FFA500"%string, "bolt"%string)
  | tau4 => ("tau4: System Saturation"%string, "#FF6347"%string, "fire"%string)
  | tau5 => ("tau5: Qualitative Leap"%string, "#DC143C"%string, "leap"%string)
  | tau6 => ("tau6: Paradoxical Transcendence"%string, "#8A2BE2"%string, "paradox"%string)
  | tau7 => ("tau7: False Stability"%string, "#FF69B4"%string, "mask"%string)
  | tau8 => ("tau8: Permanent Dialectics"%string, "#A9A9A9"%string, "infinity"%string)
  | tau9 => ("tau9: Meta-Transcendence"%string, "#000000"%string, "spiral"%string)
  end.

Record risk_event : Type := {
  re_step : nat;
  re_XEPTQLRI : option R;
  re_stage : string;
  re_A : R;
  re_anti_A : R;
  re_tension : R
}.

Record paradox_event : Type := {
  pe_step : nat;
  pe_A : R;
  pe_anti_A : R;
  pe_tension : R
}.

Record system : Type := {
  A : R;
  horizon : Z;
  aufhebung_threshold : R;
  system_name : string;
  history_A : list R;
  history_anti_A : list R;
  history_tension : list R;
  history_XEPTQLRI : list (option R);
  history_stages : list stage;
  history_stage_names : list string;
  risk_events : list risk_event;
  paradox_events : list paradox_event
}.

(** [__init__], lines 30-63. *)
Definition __init__ (initial_state_A : R) (historical_horizon : Z)
  (aufhebung_threshold : R) (system_name : string) : system :=
  {| A := np_clip initial_state_A (-1.5) 1.5;
     horizon := historical_horizon;
     aufhebung_threshold := aufhebung_threshold;
     system_name := system_name;
     history_A := []; history_anti_A := []; history_tension := [];
     history_XEPTQLRI := []; history_stages := [];
     history_stage_names := []; risk_events := []; paradox_events := [] |}.

(** [_calculate_tension], lines 89-101. *)
Definition _calculate_tension (state anti_state : R) : R :=
  let raw_intensity := Rabs (state * anti_state) in
  let intensity :=
    if (Rabs state >? 0.8) && (Rabs anti_state >? 0.8)
    then np_power raw_intensity 0.7 * 1.5
    else if (Rabs state >? 0.6) || (Rabs anti_state >? 0.6)
    then np_power raw_intensity 0.8 * 1.2
    else raw_intensity in
  np_clip intensity 0 1.

(** [_classify_stage], lines 137-170. *)
Definition permanent_dialectics (recent_stages : list stage) : bool :=
  (np_std (stage_values recent_stages) >? 1.8)
  && (np_mean (stage_values recent_stages) >? 3).

Definition tension_band (self : system) (tension : R) : stage :=
  if tension <? 0.15 then tau0
  else if tension <? 0.30 then tau1
  else if tension <? 0.45 then tau2
  else if tension <? 0.60 then tau3
  else if tension <? aufhebung_threshold self then tau4
  else tau5.

(** The guards of the two rules that come first (lines 142-143 and
    147-148). *)
Definition paradox_rule (tension current_A current_anti_A : R) : bool :=
  (Rabs current_A >? 0.85) && (Rabs current_anti_A >? 0.85)
  && (tension <? 0.4).

Definition false_stability_rule (tension current_A current_anti_A : R)
  : bool :=
  (tension <? 0.25)
  && ((Rabs current_A >? 0.75) || (Rabs current_anti_A >? 0.75)).

Definition _classify_stage (self : system)
  (tension current_A current_anti_A : R) : stage :=
  if paradox_rule tension current_A current_anti_A
  then tau6
  else if false_stability_rule tension current_A current_anti_A
  then tau7
  else if (20 <? length (history_stages self))%nat
          && permanent_dialectics (last_n 20 (history_stages self))
  then tau8
  else tension_band self tension.

Section Engine.

Context {G : Type} `{RandomState G}.

(** [_dialectical_negation], lines 65-87. *)
Definition _dialectical_negation (self : system) (state : R) : Rand G R :=
  let memory_effect :=
    if (0 <? length (history_A self))%nat then
      let window := Nat.min 10 (length (history_A self)) in
      let recent_mean := np_mean (last_n window (history_A self)) in
      0.2 * tanh (recent_mean * 2)
    else 0.0 in
  u <- np_random_rand ;;
  let preservation := 0.7 + 0.3 * u in
  v <- np_random_rand ;;
  let historical_weight := 1.0 + 0.3 * v in
  let negation :=
    - state * preservation * historical_weight * (1 + memory_effect) in
  let noise_level := 0.05 * (1 + Rabs state) in
  z <- np_random_randn ;;
  let stochastic := noise_level * z in
  ret (np_clip (negation + stochastic) (-1.5) 1.5).

(** [_calculate_XEPTQLRI], lines 103-135; nan is [None]. *)
Definition _calculate_XEPTQLRI (self : system)
  (tension current_A current_anti_A : R) : Rand G (option R) :=
  let base_risk := np_power tension 1.2 in
  let trend_factor :=
    if (5 <=? length (history_tension self))%nat then
      let recent_tension := last_n 5 (history_tension self) in
      let trend := np_polyfit_slope (range_R 5) recent_tension in
      1.0 + Rabs trend * 15
    else 1.0 in
  let paradox_factor :=
    if (Rabs current_A >? 0.8) && (Rabs current_anti_A >? 0.8) then
      if tension <? 0.35 then 2.8 else 2.0
    else if (Rabs current_A >? 0.9) || (Rabs current_anti_A >? 0.9) then 1.5
    else 1.0 in
  let asymmetry := Rabs (Rabs current_A - Rabs current_anti_A) in
  let asymmetry_factor := 1.0 + (1 - asymmetry) * 0.5 in
  let XEPTQLRI :=
    np_divide (base_risk * trend_factor * paradox_factor * asymmetry_factor)
              (aufhebung_threshold self) in
  u <- np_random_rand ;;
  let final_XEPTQLRI := np_scale XEPTQLRI (0.9 + 0.2 * u) in
  ret (np_clip_f final_XEPTQLRI 0 3.5).

(** The dictionary [simulate_step] returns. *)
Record step_result : Type := {
  sr_A : R;
  sr_anti_A : R;
  sr_tension : R;
  sr_XEPTQLRI : option R;
  sr_stage : string;
  sr_stage_idx : stage;
  sr_stage_color : string;
  sr_stage_icon : string
}.

(** [simulate_step], lines 172-230. *)
Definition simulate_step (self : system) (external_A_input : R)
  : Rand G (system * step_result) :=
  let A' := np_clip external_A_input (-1.5) 1.5 in
  let self := {| A := A'; horizon := horizon self;
                 aufhebung_threshold := aufhebung_threshold self;
                 system_name := system_name self;
                 history_A := history_A self;
                 history_anti_A := history_anti_A self;
                 history_tension := history_tension self;
                 history_XEPTQLRI := history_XEPTQLRI self;
                 history_stages := history_stages self;
                 history_stage_names := history_stage_names self;
                 risk_events := risk_events self;
                 paradox_events := paradox_events self |} in
  current_anti_A <- _dialectical_negation self (A self) ;;
  let current_tension := _calculate_tension (A self) current_anti_A in
  current_XEPTQLRI <-
    _calculate_XEPTQLRI self current_tension (A self) current_anti_A ;;
  let stage_idx := _classify_stage self current_tension (A self) current_anti_A in
  let '(stage_name, stage_color, stage_icon) := stages stage_idx in
  let step := length (history_A self) in
  ret ({| A := A self; horizon := horizon self;
          aufhebung_threshold := aufhebung_threshold self;
          system_name := system_name self;
          history_A := history_A self ++ [A self];
          history_anti_A := history_anti_A self ++ [current_anti_A];
          history_tension := history_tension self ++ [current_tension];
          history_XEPTQLRI := history_XEPTQLRI self ++ [current_XEPTQLRI];
          history_stages := history_stages self ++ [stage_idx];
          history_stage_names := history_stage_names self ++ [stage_name];
          risk_events :=
            risk_events self ++
            (if gtb_f current_XEPTQLRI 0.8 then
               [ {| re_step := step; re_XEPTQLRI := current_XEPTQLRI;
                    re_stage := stage_name; re_A := A self;
                    re_anti_A := current_anti_A;
                    re_tension := current_tension |} ]
             else []);
          paradox_events :=
            paradox_events self ++
            (if stage_eq_dec stage_idx tau6 then
               [ {| pe_step := step; pe_A := A self;
                    pe_anti_A := current_anti_A;
                    pe_tension := current_tension |} ]
             else []) |},
       {| sr_A := A self; sr_anti_A := current_anti_A;
          sr_tension := current_tension; sr_XEPTQLRI := current_XEPTQLRI;
          sr_stage := stage_name; sr_stage_idx := stage_idx;
          sr_stage_color := stage_color; sr_stage_icon := stage_icon |}).

End Engine.

(** *** The report *)

(** The five verdicts of [get_detailed_report] (lines 257-271) and the
    risk level each comes with. *)
Inductive system_status : Type :=
| STATUS_CRITICAL
| STATUS_DANGEROUS
| STATUS_CAUTION
| STATUS_STABLE
| STATUS_DYNAMIC.

Inductive risk_level : Type :=
| RISK_HIGH
| RISK_MEDIUM_HIGH
| RISK_MEDIUM
| RISK_LOW.

(** The five recommendations of [_generate_recommendations]. *)
Inductive recommendation : Type :=
| IncreasedParadoxicality
| FalseStabilityWarning
| ExceptionalRisk
| OptimalPerformance
| NormalBehaviour.

(** [_generate_recommendations], lines 307-326. *)
Definition _generate_recommendations (paradox_time false_stab_time : R)
  (max_XEPTQLRI mean_XEPTQLRI : option R) : list recommendation :=
  let recommendations :=
    (if paradox_time >? 30 then [IncreasedParadoxicality] else [])
    ++ (if false_stab_time >? 40 then [FalseStabilityWarning] else [])
    ++ (if gtb_f max_XEPTQLRI 2.0 then [ExceptionalRisk] else [])
    ++ (if ltb_f mean_XEPTQLRI 0.3 && (paradox_time <? 10)
        then [OptimalPerformance] else []) in
  match recommendations with
  | [] => [NormalBehaviour]
  | _ :: _ => recommendations
  end.

Record statistics : Type := {
  mean_A : R;
  mean_anti_A : R;
  mean_tension : R;
  mean_XEPTQLRI : option R;
  max_XEPTQLRI : option R;
  paradox_percentage : R;
  false_stability_percentage : R;
  critical_states_percentage : R
}.

Record events : Type := {
  risk_events_count : nat;
  paradox_events_count : nat;
  high_risk_events : nat
}.

Record report : Type := {
  rp_system_name : string;
  total_steps : nat;
  system_status_of : system_status;
  risk_level_of : risk_level;
  final_stage : string;
  final_stage_icon : string;
  rp_statistics : statistics;
  rp_events : events;
  stage_distribution : list (string * nat);
  recommendations : list recommendation
}.

(** What [get_detailed_report] returns: the dictionary with the single key
    ["error"], or the report. *)
Inductive detailed_report : Type :=
| NoSimulationData
| Detailed (r : report).

Definition all_stages : list stage :=
  [tau0; tau1; tau2; tau3; tau4; tau5; tau6; tau7; tau8; tau9].

(** The share of the recorded stages that pass a test, in percent
    (lines 246-248). *)
Definition stage_time (test : stage -> bool) (self : system) : R :=
  np_mean (map (fun s => b2r (test s)) (history_stages self)) * 100.

Definition is_stage (idx : stage) (s : stage) : bool :=
  if stage_eq_dec s idx then true else false.

(** The verdict chain of lines 257-271. *)
Definition verdict (paradox_time false_stab_time : R)
  (max_XEPTQLRI mean_XEPTQLRI : option R) : system_status * risk_level :=
  if paradox_time >? 40 then (STATUS_CRITICAL, RISK_HIGH)
  else if false_stab_time >? 50 then (STATUS_DANGEROUS, RISK_MEDIUM_HIGH)
  else if gtb_f max_XEPTQLRI 2.0 then (STATUS_CAUTION, RISK_MEDIUM)
  else if ltb_f mean_XEPTQLRI 0.4 then (STATUS_STABLE, RISK_LOW)
  else (STATUS_DYNAMIC, RISK_MEDIUM).

(** [get_detailed_report], lines 232-305. *)
Definition get_detailed_report (self : system)
  : detailed_report + lookup_error :=
  match history_XEPTQLRI self with
  | [] => inl NoSimulationData
  | _ :: _ =>
      let n_steps := length (history_A self) in
      let mean_XEPTQLRI := np_mean_f (history_XEPTQLRI self) in
      let max_XEPTQLRI := np_max_f (history_XEPTQLRI self) in
      let paradox_time := stage_time (is_stage tau6) self in
      let false_stab_time := stage_time (is_stage tau7) self in
      let critical_time :=
        stage_time (fun s => is_stage tau5 s || is_stage tau6 s
                             || is_stage tau7 s) self in
      let stage_counts :=
        map (fun idx => (fst (fst (stages idx)),
                         length (filter (is_stage idx) (history_stages self))))
            all_stages in
      let '(status, risk_level) :=
        verdict paradox_time false_stab_time max_XEPTQLRI mean_XEPTQLRI in
      match rev (history_stage_names self), rev (history_stages self) with
      | [], _ => inr (IndexError "list index out of range")
      | _ :: _, [] => inr (IndexError "list index out of range")
      | final_name :: _, final_idx :: _ =>
          inl (Detailed
            {| rp_system_name := system_name self;
               total_steps := n_steps;
               system_status_of := status;
               risk_level_of := risk_level;
               final_stage := final_name;
               final_stage_icon := snd (stages final_idx);
               rp_statistics :=
                 {| mean_A := np_mean (history_A self);
                    mean_anti_A := np_mean (history_anti_A self);
                    mean_tension := np_mean (history_tension self);
                    mean_XEPTQLRI := mean_XEPTQLRI;
                    max_XEPTQLRI := max_XEPTQLRI;
                    paradox_percentage := paradox_time;
                    false_stability_percentage := false_stab_time;
                    critical_states_percentage := critical_time |};
               rp_events :=
                 {| risk_events_count := length (risk_events self);
                    paradox_events_count := length (paradox_events self);
                    high_risk_events :=
                      length (filter (fun e => gtb_f (re_XEPTQLRI e) 1.5)
                                     (risk_events self)) |};
               stage_distribution := stage_counts;
               recommendations :=
                 _generate_recommendations paradox_time false_stab_time
                   max_XEPTQLRI mean_XEPTQLRI |})
      end
  end.

Section Driver.

Context {G : Type} `{RandomState G}.

(** The loop of [run_full_analysis] that drives one system (lines
    820-824): each pass perturbs [A_value] by a normal draw of the given
    level and steps the system with it. *)
Fixpoint drive (passes : nat) (A_value noise_level : R) (self : system)
  : Rand G (result system) :=
  match passes with
  | O => ret (Ok self)
  | S passes' =>
      drawn <- np_random_normal 0 noise_level ;;
      match drawn with
      | Raise e => ret (Raise e)
      | Ok noise =>
          let A_with_noise := A_value + noise in
          stepped <- simulate_step self A_with_noise ;;
          drive passes' A_value noise_level (fst stepped)
      end
  end.

(** Lines 808-826 of [run_full_analysis] for one timestep, from the mean
    absolute error measured there and the number of steps asked for. *)
Definition analyse_timestep (mae : R) (xen_steps : Z) (name : string)
  : Rand G (result system) :=
  let A_value := np_clip (1.0 - mae * 8) (-1.0) 1.0 in
  let system := __init__ A_value xen_steps 0.8 name in
  drive (Z.to_nat xen_steps) A_value (0.05 + mae * 0.1) system.

End Driver.

End Denoise.

(** ** The paradox score as the specification words it *)

Module Spec.

(** The tension-paradox indicator: [1] when both poles are extreme and the
    tension is below the low-tension cutoff, else [0].  The two cutoffs are
    left open by the specification; the code's 0.7 and 0.3 are taken. *)
Definition tension_paradox_indicator (state anti_state tension : R) : R :=
  if (Rabs state >? 0.7) && (Rabs anti_state >? 0.7) && (tension <? 0.3)
  then 1 else 0.

(** Persistence: the fraction of the last 10 steps with both pole
    magnitudes above 0.7. *)
Definition persistence (history_A history_anti_A : list R) : R :=
  let recent := combine (last_n 10 history_A) (last_n 10 history_anti_A) in
  match recent with
  | [] => 0
  | _ :: _ =>
      np_mean (map (fun ab => b2r ((Rabs (fst ab) >? 0.7)
                                   && (Rabs (snd ab) >? 0.7))) recent)
  end.

Definition paradox_score (history_A history_anti_A : list R)
  (state anti_state tension : R) : R :=
  np_clip (0.4 * Rmin (Rabs state) (Rabs anti_state)
           + 0.3 * (1 - Rabs (Rabs state - Rabs anti_state))
           + 0.2 * tension_paradox_indicator state anti_state tension
           + 0.1 * persistence history_A history_anti_A) 0 1.

End Spec.

(** ** A generator that replays recorded draws *)

(** The state is the list of draws still to come; an exhausted list yields
    [0].  Seeding loads the list the seed stands for. *)
Definition tape : Type := list R.

#[export] Instance replay : RandomState tape := {|
  np_random_seed := fun s => [IZR (s mod 100) / 100];
  np_random_rand := fun t => (hd 0 t, tl t);
  np_random_randn := fun t => (hd 0 t, tl t)
|}.

(** ** Sample objects *)

(** The [false_stability] configuration of [demonstrate_paradox_detection]
    (initial state 0.85, horizon 180, threshold 0.8, volatility 0.02), with
    empty histories. *)
Definition false_stability_system : Main.system :=
  Main.initialised 0.85 180 0.8 0.02 "False Stability System" (-0.8).

(** The [dynamic_chaos] configuration of the same demonstration (initial
    state 0.5, horizon 250, threshold 0.7, volatility 0.1). *)
Definition dynamic_chaos_system : Main.system :=
  Main.initialised 0.5 250 0.7 0.1 "Dynamic Chaos System" (-0.45).

(** An object eleven steps into a run whose poles sat at 0.9 and -0.9. *)
Definition extreme_poles_system : Main.system :=
  {| Main.A := 0.9; Main.horizon := 200;
     Main.aufhebung_threshold := 0.85; Main.volatility := 0.03;
     Main.system_name := "Extreme Poles"; Main.anti_A := -0.9;
     Main.history_A := repeat 0.9 11;
     Main.history_anti_A := repeat (-0.9) 11;
     Main.history_tension := repeat 1 11;
     Main.history_XEPTQLRI := repeat (Some 1.76) 11;
     Main.history_true_XEPTQLRI := repeat (Some 1.76) 11;
     Main.history_stages := repeat tau5 11;
     Main.history_true_stages := repeat tau5 11;
     Main.history_paradox_scores := repeat 0.66 11;
     Main.risk_events := []; Main.paradox_events := [];
     Main.phase_history := repeat 0%nat 11 |}.

(** Twenty-one recorded steps of a run whose poles grew from 0.3 to 1:
    nine steps in tau0, two in tau1, two in tau4, eight in tau5. *)
Definition rising_stages : list stage :=
  repeat tau0 9 ++ [tau1; tau1; tau4; tau4] ++ repeat tau5 8.

Definition rising_A : list R :=
  repeat 0.3 9 ++ [0.5; 0.5; 1; 1] ++ repeat 1 8.

Definition rising_anti_A : list R :=
  repeat (-0.3) 9 ++ [-0.5; -0.5; -0.8; -0.8] ++ repeat (-0.9) 8.

Definition rising_tension : list R :=
  repeat 0.09 9 ++ [0.25; 0.25; 0.8; 0.8] ++ repeat 1 8.


Definition rising_denoise_system : Denoise.system :=
  {| Denoise.A := 1; Denoise.horizon := 200;
     Denoise.aufhebung_threshold := 0.85;
     Denoise.system_name := "Rising";
     Denoise.history_A := rising_A;
     Denoise.history_anti_A := rising_anti_A;
     Denoise.history_tension := rising_tension;
     Denoise.history_XEPTQLRI :=
       repeat (Some 0.1) 9 ++ repeat (Some 0.3) 2 ++ repeat (Some 0.94) 2
       ++ repeat (Some 1.76) 8;
     Denoise.history_stages := rising_stages;
     Denoise.history_stage_names :=
       map (fun s => fst (fst (Denoise.stages s))) rising_stages;
     Denoise.risk_events := []; Denoise.paradox_events := [] |}.

(** A one-step run at volatility 2, and the draws it consumes: the
    preservation draw 0.5, then Gaussian draws -4, 0, 0, 0. *)
Definition wide_noise_system : Main.system :=
  Main.initialised 1 1 0.85 2 "Wide Noise" (-0.9).

Definition wide_noise_draws : tape := [0.5; -4; 0; 0; 0].

(** A one-step run from state 0 with a zero threshold. *)
Definition zero_threshold_system : Main.system :=
  Main.initialised 0 1 0 0.03 "Zero Threshold" 0.

(** A hundred recorded steps of a calm run of the [apparently_stable]
    configuration of the demonstration (initial state 0.2, horizon 150,
    threshold 0.9, volatility 0.01). *)
Definition calm_system : Main.system :=
  {| Main.A := 0.2; Main.horizon := 150;
     Main.aufhebung_threshold := 0.9; Main.volatility := 0.01;
     Main.system_name := "Apparently Stable System"; Main.anti_A := -0.18;
     Main.history_A := repeat 0.2 100;
     Main.history_anti_A := repeat (-0.18) 100;
     Main.history_tension := repeat 0.036 100;
     Main.history_XEPTQLRI := repeat (Some 0.04) 100;
     Main.history_true_XEPTQLRI := repeat (Some 0.04) 100;
     Main.history_stages := repeat tau0 100;
     Main.history_true_stages := repeat tau0 100;
     Main.history_paradox_scores := repeat 0.366 100;
     Main.risk_events := []; Main.paradox_events := [];
     Main.phase_history := repeat 0%nat 100 |}.

(** ** Predicates the properties are stated with *)

(** What the bounds invariant says of the recorded histories. *)
Definition bounded_histories (self : Main.system) : Prop :=
  Forall (fun a => -1.2 <= a <= 1.2) (Main.history_A self)
  /\ Forall (fun t => 0 <= t <= 1) (Main.history_tension self)
  /\ Forall (fun p => 0 <= p <= 1) (Main.history_paradox_scores self)
  /\ Forall (fun v => exists x, v = Some x /\ 0 <= x <= 3.0)
            (Main.history_XEPTQLRI self).

Definition bounded_result (r : Denoise.step_result) : Prop :=
  -1.5 <= Denoise.sr_A r <= 1.5
  /\ -1.5 <= Denoise.sr_anti_A r <= 1.5
  /\ 0 <= Denoise.sr_tension r <= 1
  /\ exists x, Denoise.sr_XEPTQLRI r = Some x /\ 0 <= x <= 3.5.


(** Every history of the object holds [n] entries. *)
Definition recorded (self : Main.system) (n : nat) : Prop :=
  length (Main.history_A self) = n
  /\ length (Main.history_anti_A self) = n
  /\ length (Main.history_tension self) = n
  /\ length (Main.history_XEPTQLRI self) = n
  /\ length (Main.history_true_XEPTQLRI self) = n
  /\ length (Main.history_stages self) = n
  /\ length (Main.history_true_stages self) = n
  /\ length (Main.history_paradox_scores self) = n
  /\ length (Main.phase_history self) = n.

(** The configuration and the two state attributes of the object. *)
Definition configuration (self : Main.system)
  : R * R * Z * R * R * string :=
  (Main.A self, Main.anti_A self, Main.horizon self,
   Main.aufhebung_threshold self, Main.volatility self,
   Main.system_name self).

(** A risk event as the loop logs them: a finite index above 0.7, marked
    CRITICAL exactly above 1.0. *)
Definition sound_risk_event (e : Main.risk_event) : Prop :=
  exists x, Main.re_XEPTQLRI e = Some x
            /\ Main.re_true_XEPTQLRI e = Some x
            /\ 0.7 < x
            /\ (Main.re_risk e = Main.CRITICAL <-> 1.0 < x).

(** Every history of the denoising object holds [n] entries. *)
Definition recorded_steps (self : Denoise.system) (n : nat) : Prop :=
  length (Denoise.history_A self) = n
  /\ length (Denoise.history_anti_A self) = n
  /\ length (Denoise.history_tension self) = n
  /\ length (Denoise.history_XEPTQLRI self) = n
  /\ length (Denoise.history_stages self) = n
  /\ length (Denoise.history_stage_names self) = n.

(** The effects of a stretch of the loop on the object it works on. *)
Definition loop_effect (before after : Main.system) (passes : nat) : Prop :=
  configuration after = configuration before
  /\ (forall n, recorded before n -> recorded after (n + passes))
  /\ (exists added,
        Main.risk_events after = Main.risk_events before ++ added
        /\ (length added <= passes)%nat
        /\ Forall sound_risk_event added)
  /\ (exists added,
        Main.paradox_events after = Main.paradox_events before ++ added
        /\ (length added <= 3 * passes)%nat).

(** What the bounds say of the histories of the denoising object. *)
Definition bounded_denoise_histories (self : Denoise.system) : Prop :=
  Forall (fun a => -1.5 <= a <= 1.5) (Denoise.history_A self)
  /\ Forall (fun a => -1.5 <= a <= 1.5) (Denoise.history_anti_A self)
  /\ Forall (fun t => 0 <= t <= 1) (Denoise.history_tension self)
  /\ Forall (fun v => exists x, v = Some x /\ 0 <= x <= 3.5)
            (Denoise.history_XEPTQLRI self).

(** The advice for a diagnosis that none of the three substring tests
    matches. *)
Definition advice_by_metrics (diagnosis : Main.true_state) (m : Main.metrics)
  : Main.advice :=
  if gtb_f (Main.max_XEPTQLRI m) 2.0 then Main.advice_extreme_risk
  else if Main.stability_deception m >? 0.5 then Main.advice_deception
  else match diagnosis with
       | Main.TRUE_STABILITY => Main.advice_true_stability
       | _ => Main.advice_dynamic_equilibrium
       end.

(** * Properties *)

(** ** Comparisons and clipping *)

Lemma gtb_true (a b : R) : b < a -> (a >? b) = true.
Proof. intros Hlt. unfold gtb. destruct (Rlt_dec b a); [reflexivity | contradiction]. Qed.

Lemma gtb_false (a b : R) : a <= b -> (a >? b) = false.
Proof. intros Hle. unfold gtb. destruct (Rlt_dec b a); [lra | reflexivity]. Qed.

Lemma ltb_true (a b : R) : a < b -> (a <? b) = true.
Proof. intros Hlt. unfold ltb. destruct (Rlt_dec a b); [reflexivity | contradiction]. Qed.

Lemma ltb_false (a b : R) : b <= a -> (a <? b) = false.
Proof. intros Hle. unfold ltb. destruct (Rlt_dec a b); [lra | reflexivity]. Qed.

Lemma gtb_spec (a b : R) : (a >? b) = true <-> b < a.
Proof.
  split; [| apply gtb_true].
  unfold gtb. destruct (Rlt_dec b a); [trivial | discriminate].
Qed.

Lemma ltb_spec (a b : R) : (a <? b) = true <-> a < b.
Proof.
  split; [| apply ltb_true].
  unfold ltb. destruct (Rlt_dec a b); [trivial | discriminate].
Qed.

Lemma gtb_spec_false (a b : R) : (a >? b) = false <-> a <= b.
Proof.
  split; [| apply gtb_false].
  unfold gtb. destruct (Rlt_dec b a); [discriminate | lra].
Qed.

Lemma ltb_spec_false (a b : R) : (a <? b) = false <-> b <= a.
Proof.
  split; [| apply ltb_false].
  unfold ltb. destruct (Rlt_dec a b); [discriminate | lra].
Qed.

(** Settles every comparison in the goal that linear arithmetic decides. *)
Ltac cmp :=
  repeat match goal with
    | |- context [?a >? ?b] =>
        first [ rewrite (gtb_true a b) by lra
              | rewrite (gtb_false a b) by lra ]
    | |- context [?a <? ?b] =>
        first [ rewrite (ltb_true a b) by lra
              | rewrite (ltb_false a b) by lra ]
    end.

Lemma np_clip_bounds (x lo hi : R) : lo <= hi -> lo <= np_clip x lo hi <= hi.
Proof.
  intros Hle. unfold np_clip, Rmin, Rmax.
  destruct (Rle_dec x lo); destruct (Rle_dec _ hi); lra.
Qed.

Lemma np_clip_le (x lo hi b : R) : lo <= b -> x <= b -> np_clip x lo hi <= b.
Proof.
  intros Hlo Hx. unfold np_clip, Rmin, Rmax.
  destruct (Rle_dec x lo); destruct (Rle_dec _ hi); lra.
Qed.

Lemma np_clip_inside (x lo hi : R) : lo <= x <= hi -> np_clip x lo hi = x.
Proof.
  intros Hx. unfold np_clip, Rmin, Rmax.
  destruct (Rle_dec x lo); destruct (Rle_dec _ hi); lra.
Qed.

Lemma np_clip_above (x lo hi : R) : lo <= hi -> hi <= x -> np_clip x lo hi = hi.
Proof.
  intros Hle Hx. unfold np_clip, Rmin, Rmax.
  destruct (Rle_dec x lo); destruct (Rle_dec _ hi); lra.
Qed.

Lemma Rabs_val_pos (x : R) : 0 <= x -> Rabs x = x.
Proof. intros Hx. unfold Rabs. destruct (Rcase_abs x); lra. Qed.

Lemma Rabs_val_neg (x : R) : x <= 0 -> Rabs x = - x.
Proof. intros Hx. unfold Rabs. destruct (Rcase_abs x); lra. Qed.

(** ** The classifier *)

(** C2.  Whenever both pole magnitudes exceed 0.85 and the tension is below
    0.4, the classifier of the main engine and the one of the denoising
    variant both answer stage tau6: the paradox rule is the first rule of
    each, so nothing can preempt it. *)
Theorem paradox_rule_gives_tau6 :
  forall (m : Main.system) (d : Denoise.system)
         (tension current_A current_anti_A paradox_score : R),
    Rabs current_A > 0.85 ->
    Rabs current_anti_A > 0.85 ->
    tension < 0.4 ->
    Main._enhanced_stage_classification m tension current_A current_anti_A
      paradox_score = tau6
    /\ Denoise._classify_stage d tension current_A current_anti_A = tau6.
Proof.
  intros m d tension a b ps Ha Hb Ht.
  unfold Main._enhanced_stage_classification, Denoise._classify_stage,
    Main.paradox_rule, Denoise.paradox_rule.
  cmp. split; reflexivity.
Qed.

Lemma paradox_rule_gives_tau6_witness :
  Main._enhanced_stage_classification false_stability_system 0.2 0.9 (-0.9) 0.5
  = tau6
  /\ Denoise._classify_stage (Denoise.__init__ 0.9 10 0.85 "w") 0.2 0.9 (-0.9)
     = tau6.
Proof.
  apply paradox_rule_gives_tau6.
  - rewrite Rabs_val_pos by lra. lra.
  - rewrite Rabs_val_neg by lra. lra.
  - lra.
Defined.

Lemma main_tension_band_low (self : Main.system) (t : R) :
  In (Main.tension_band self t) [tau0; tau1; tau2; tau3; tau4; tau5].
Proof.
  unfold Main.tension_band.
  repeat match goal with
    | |- context [if ?c then _ else _] => destruct c
    end; simpl; tauto.
Qed.

(** ** The risk index *)

(** C9.  In the risk index of the main engine the trend factor is 1.5 when
    the historical trend exceeds 0.1 and 1.0 otherwise; the branch that
    assigns 2.0 is never taken. *)
Theorem trend_factor_two_tiers :
  forall historical_trend : R,
    Main.trend_factor historical_trend
    = (if historical_trend >? 0.1 then 1.5 else 1.0)
    /\ Main.trend_tier historical_trend <> Main.trend_above_03
    /\ Main.trend_factor historical_trend <> 2.0.
Proof.
  intros ht. unfold Main.trend_factor, Main.trend_tier.
  destruct (Rlt_dec 0.1 ht) as [Hhi | Hlo].
  - rewrite gtb_true by assumption. simpl.
    repeat split; [discriminate | lra].
  - rewrite !gtb_false by lra. simpl.
    repeat split; [discriminate | lra].
Qed.

(** ** The paradox score *)

Lemma extremity_score_le (a b c : R) :
  Rabs a <= c -> Main.extremity_score a b <= c.
Proof.
  intros Ha. unfold Main.extremity_score, Rmin.
  destruct (Rle_dec (Rabs a) (Rabs b)); lra.
Qed.

Lemma extremity_score_nonneg (a b : R) : 0 <= Main.extremity_score a b.
Proof.
  unfold Main.extremity_score, Rmin.
  pose proof (Rabs_pos a). pose proof (Rabs_pos b).
  destruct (Rle_dec (Rabs a) (Rabs b)); lra.
Qed.

Lemma symmetry_score_le_1 (a b : R) : Main.symmetry_score a b <= 1.
Proof.
  unfold Main.symmetry_score.
  pose proof (Rabs_pos (Rabs a - Rabs b)). lra.
Qed.

Lemma persistence_score_range (self : Main.system) :
  0 <= Main.persistence_score self <= 0.3.
Proof.
  unfold Main.persistence_score.
  repeat match goal with
    | |- context [if ?c then _ else _] => destruct c
    end; lra.
Qed.

Lemma tension_paradox_range (a b t : R) :
  0 <= Main.tension_paradox a b t <= 0.5.
Proof.
  unfold Main.tension_paradox.
  destruct (_ && _); lra.
Qed.

Lemma tension_paradox_high_tension (a b t : R) :
  0.3 <= t -> Main.tension_paradox a b t = 0.
Proof.
  intros Ht. unfold Main.tension_paradox.
  rewrite (ltb_false t 0.3) by lra.
  now rewrite andb_false_r.
Qed.

Lemma paradox_score_high_tension (self : Main.system) (a b t : R) :
  Rabs a <= 1 -> Rabs b <= 1 -> 0.3 <= t ->
  Main._calculate_paradox_score self a b t <= 0.73.
Proof.
  intros Ha Hb Ht. unfold Main._calculate_paradox_score.
  apply np_clip_le; [lra |].
  rewrite tension_paradox_high_tension by assumption.
  pose proof (extremity_score_le a b 1 Ha).
  pose proof (symmetry_score_le_1 a b).
  pose proof (persistence_score_range self).
  lra.
Qed.

(** C10.  With both pole magnitudes at most 1, the classifier of the main
    engine, fed the paradox score the engine computes for the same step,
    never answers tau9: above a tension of 0.6 the score is at most 0.73,
    short of the 0.8 the rule asks for. *)
Theorem meta_transcendence_unreachable :
  forall (self : Main.system) (tension current_A current_anti_A : R),
    Rabs current_A <= 1 ->
    Rabs current_anti_A <= 1 ->
    Main._enhanced_stage_classification self tension current_A current_anti_A
      (Main._calculate_paradox_score self current_A current_anti_A tension)
    <> tau9
    /\ (0.6 < tension ->
        Main._calculate_paradox_score self current_A current_anti_A tension
        <= 0.73).
Proof.
  intros self t a b Ha Hb. split.
  - unfold Main._enhanced_stage_classification.
    destruct (Main.paradox_rule t a b); [discriminate |].
    destruct (Main.false_stability_rule t a b); [discriminate |].
    destruct (_ && _); [discriminate |].
    destruct (Main._calculate_paradox_score self a b t >? 0.8) eqn:Hps;
      destruct (t >? 0.6) eqn:Ht; simpl.
    + apply gtb_spec in Hps. apply gtb_spec in Ht.
      pose proof (paradox_score_high_tension self a b t Ha Hb). lra.
    + pose proof (main_tension_band_low self t) as Hin. simpl in Hin.
      intros Heq. rewrite Heq in Hin.
      repeat (destruct Hin as [Hin | Hin]; [discriminate |]). exact Hin.
    + pose proof (main_tension_band_low self t) as Hin. simpl in Hin.
      intros Heq. rewrite Heq in Hin.
      repeat (destruct Hin as [Hin | Hin]; [discriminate |]). exact Hin.
    + pose proof (main_tension_band_low self t) as Hin. simpl in Hin.
      intros Heq. rewrite Heq in Hin.
      repeat (destruct Hin as [Hin | Hin]; [discriminate |]). exact Hin.
  - intros Ht. apply paradox_score_high_tension; lra.
Qed.

Lemma meta_transcendence_unreachable_witness :
  Main._enhanced_stage_classification false_stability_system 0.7 0.9 (-0.9)
    (Main._calculate_paradox_score false_stability_system 0.9 (-0.9) 0.7)
  <> tau9
  /\ (0.6 < 0.7 ->
      Main._calculate_paradox_score false_stability_system 0.9 (-0.9) 0.7
      <= 0.73).
Proof.
  apply meta_transcendence_unreachable.
  - rewrite Rabs_val_pos by lra. lra.
  - rewrite Rabs_val_neg by lra. lra.
Defined.

(** Evaluation of the list operations on explicit lists. *)
Ltac eval_lists :=
  cbv [last_n Datatypes.length skipn Nat.sub repeat map combine fold_right
       np_mean np_sum app Nat.ltb Nat.leb fst snd b2r];
  repeat rewrite INR_IZR_INZ; cbv [Z.of_nat Pos.of_succ_nat Pos.succ].

Lemma paradox_score_code_at_extremes :
  Main._calculate_paradox_score false_stability_system 0.9 (-0.9) 0.1 = 0.76.
Proof.
  unfold Main._calculate_paradox_score, Main.tension_paradox,
    Main.extremity_score, Main.symmetry_score, Main.persistence_score.
  simpl Main.history_A. cbv [Datatypes.length Nat.ltb Nat.leb].
  rewrite (Rabs_val_pos 0.9) by lra. rewrite (Rabs_val_neg (-0.9)) by lra.
  replace (- -0.9) with 0.9 by lra.
  replace (0.9 - 0.9) with 0 by lra. rewrite Rabs_R0.
  unfold Rmin. destruct (Rle_dec 0.9 0.9); [| lra].
  cmp. simpl andb. cbv iota.
  rewrite np_clip_inside by lra. lra.
Qed.

Lemma paradox_score_spec_at_extremes :
  Spec.paradox_score [] [] 0.9 (-0.9) 0.1 = 0.86.
Proof.
  unfold Spec.paradox_score, Spec.tension_paradox_indicator, Spec.persistence.
  eval_lists.
  rewrite (Rabs_val_pos 0.9) by lra. rewrite (Rabs_val_neg (-0.9)) by lra.
  replace (- -0.9) with 0.9 by lra.
  replace (0.9 - 0.9) with 0 by lra. rewrite Rabs_R0.
  unfold Rmin. destruct (Rle_dec 0.9 0.9); [| lra].
  cmp. simpl andb. cbv iota.
  rewrite np_clip_inside by lra. lra.
Qed.

Lemma persistence_code_extreme_poles :
  Main.persistence_score extreme_poles_system = 0.3.
Proof.
  unfold Main.persistence_score, extreme_poles_system.
  cbv [Main.history_A Main.history_anti_A].
  eval_lists.
  rewrite !(Rabs_val_pos 0.9) by lra. rewrite !(Rabs_val_neg (-0.9)) by lra.
  cmp. reflexivity.
Qed.

Lemma persistence_spec_extreme_poles :
  Spec.persistence (Main.history_A extreme_poles_system)
    (Main.history_anti_A extreme_poles_system) = 1.
Proof.
  unfold Spec.persistence, extreme_poles_system.
  cbv [Main.history_A Main.history_anti_A].
  eval_lists.
  rewrite !(Rabs_val_pos 0.9) by lra. rewrite !(Rabs_val_neg (-0.9)) by lra.
  cmp. simpl andb. cbv iota. lra.
Qed.

(** C4, as the code has it.  The paradox score of the main engine is the
    sum 0.4 x extremity + 0.3 x symmetry + 0.2 x tension-paradox + 0.1 x
    persistence clipped to [0,1], where the tension-paradox term is 0.5
    (not 1) when the extremity exceeds 0.7 and the tension is below 0.3, and
    the persistence term is 0.3 when more than 10 steps are recorded and the
    mean magnitudes of the last 10 values of A and of anti_A both exceed
    0.7 (not a fraction of steps); both terms are 0 otherwise. *)
Theorem paradox_score_weighted_sum :
  forall (self : Main.system) (state anti_state tension : R),
    Main._calculate_paradox_score self state anti_state tension
    = np_clip
        (0.4 * Rmin (Rabs state) (Rabs anti_state)
         + 0.3 * (1 - Rabs (Rabs state - Rabs anti_state))
         + 0.2 * (if (Rmin (Rabs state) (Rabs anti_state) >? 0.7)
                     && (tension <? 0.3) then 0.5 else 0)
         + 0.1 * (if (10 <? length (Main.history_A self))%nat
                     && (np_mean (map Rabs (last_n 10 (Main.history_A self)))
                         >? 0.7)
                     && (np_mean (map Rabs (last_n 10 (Main.history_anti_A self)))
                         >? 0.7)
                  then 0.3 else 0)) 0 1
    /\ 0 <= Main._calculate_paradox_score self state anti_state tension <= 1.
Proof.
  intros self a b t. split.
  - unfold Main._calculate_paradox_score, Main.tension_paradox,
      Main.persistence_score, Main.extremity_score, Main.symmetry_score.
    f_equal.
    destruct (10 <? length (Main.history_A self))%nat; simpl andb;
      repeat match goal with
        | |- context [if ?c then _ else _] => destruct c
        end; lra.
  - apply np_clip_bounds. lra.
Qed.

(** C4 as stated fails twice over: at poles 0.9 and -0.9 with tension 0.1
    and no history the code scores 0.76 where the stated sum is 0.86, and
    after eleven steps at those poles the persistence term is 0.3 where the
    stated fraction is 1. *)
Lemma paradox_score_differs_from_stated_sum :
  Main._calculate_paradox_score false_stability_system 0.9 (-0.9) 0.1
  <> Spec.paradox_score (Main.history_A false_stability_system)
       (Main.history_anti_A false_stability_system) 0.9 (-0.9) 0.1
  /\ Main.persistence_score extreme_poles_system
     <> Spec.persistence (Main.history_A extreme_poles_system)
          (Main.history_anti_A extreme_poles_system).
Proof.
  split.
  - rewrite paradox_score_code_at_extremes.
    change (Main.history_A false_stability_system) with (@nil R).
    change (Main.history_anti_A false_stability_system) with (@nil R).
    rewrite paradox_score_spec_at_extremes. lra.
  - rewrite persistence_code_extreme_poles, persistence_spec_extreme_poles. lra.
Qed.

(** ** The tension *)

Lemma ln_le_minus_1 (y : R) : 0 < y -> ln y <= y - 1.
Proof.
  intros Hy. pose proof (exp_ineq1_le (ln y)) as Hexp.
  rewrite exp_ln in Hexp by assumption. lra.
Qed.

Lemma Rpower_081_07 : 2 / 3 < Rpower 0.81 0.7.
Proof.
  unfold Rpower.
  assert (Hln : - 0.25 <= ln 0.81).
  { assert (Hinv : ln (/ 0.81) <= / 0.81 - 1) by (apply ln_le_minus_1; lra).
    rewrite ln_Rinv in Hinv by lra.
    assert (/ 0.81 <= 1.25).
    { apply Rmult_le_reg_l with 0.81; [lra |].
      rewrite Rinv_r by lra. lra. }
    lra. }
  pose proof (exp_ineq1_le (0.7 * ln 0.81)). lra.
Qed.

Lemma denoise_tension_09 :
  Denoise._calculate_tension 0.9 0.9
  = np_clip (Rpower (Rabs 0.81) 0.7 * 1.5) 0 1.
Proof.
  unfold Denoise._calculate_tension.
  rewrite (Rabs_val_pos 0.9) by lra. cmp. simpl andb. cbv iota.
  replace (0.9 * 0.9) with 0.81 by lra.
  unfold np_power. rewrite (Rabs_val_pos 0.81) by lra.
  destruct (Rlt_dec 0 0.81); [reflexivity | lra].
Qed.

Lemma main_intensity_extreme (G : Type) `{RandomState G}
  (self : Main.system) (state anti_state : R) (g : G) :
  0.8 < Rabs state -> 0.8 < Rabs anti_state ->
  fst (Main._dialectical_conjunction_intensity self state anti_state g)
  = np_clip (Rabs (state * anti_state)
             * (1.5 + Main.volatility self * fst (np_random_randn g))) 0 1.
Proof.
  intros Hs Ha. unfold Main._dialectical_conjunction_intensity, bind, ret.
  cmp. cbv [andb].
  destruct (np_random_randn g) as [z g']. reflexivity.
Qed.

(** C3, as the code has it.  For the forced pair A = 0.9, negA = 0.9: the
    tension of the denoising variant is |0.81|^0.7 x 1.5 clipped to [0,1],
    which is 1; the tension of the main engine is |0.81| x (1.5 +
    volatility x z) clipped to [0,1], z being the Gaussian draw; the
    extremity component of the paradox score is 0.9. *)
Theorem forced_pair_09 :
  forall (G : Type) (RS : RandomState G) (self : Main.system) (g : G),
    Denoise._calculate_tension 0.9 0.9
    = np_clip (Rpower (Rabs 0.81) 0.7 * 1.5) 0 1
    /\ Denoise._calculate_tension 0.9 0.9 = 1
    /\ fst (Main._dialectical_conjunction_intensity self 0.9 0.9 g)
       = np_clip (Rabs 0.81
                  * (1.5 + Main.volatility self * fst (np_random_randn g))) 0 1
    /\ Main.extremity_score 0.9 0.9 = 0.9.
Proof.
  intros G RS self g. repeat split.
  - apply denoise_tension_09.
  - rewrite denoise_tension_09. rewrite (Rabs_val_pos 0.81) by lra.
    apply np_clip_above; [lra |].
    pose proof Rpower_081_07. lra.
  - rewrite main_intensity_extreme by (rewrite Rabs_val_pos; lra).
    replace (0.9 * 0.9) with 0.81 by lra. reflexivity.
  - unfold Main.extremity_score, Rmin.
    rewrite (Rabs_val_pos 0.9) by lra.
    destruct (Rle_dec 0.9 0.9); lra.
Qed.

(** C3 as stated fails in the main engine: at volatility 0.1 a Gaussian
    draw of -3 gives the tension 0.972, not the clipped power law. *)
Lemma main_tension_not_power_law :
  fst (Main._dialectical_conjunction_intensity dynamic_chaos_system 0.9 0.9
         [-3])
  <> np_clip (Rpower (Rabs 0.81) 0.7 * 1.5) 0 1.
Proof.
  rewrite main_intensity_extreme by (rewrite Rabs_val_pos; lra).
  simpl. rewrite (Rabs_val_pos (0.9 * 0.9)) by lra.
  rewrite (Rabs_val_pos 0.81) by lra.
  rewrite np_clip_inside by lra.
  rewrite np_clip_above; [lra | lra |].
  pose proof Rpower_081_07. lra.
Qed.

(** ** The permanent-dialectics rule *)

Lemma denoise_tension_band_low (self : Denoise.system) (t : R) :
  In (Denoise.tension_band self t) [tau0; tau1; tau2; tau3; tau4; tau5].
Proof.
  unfold Denoise.tension_band.
  repeat match goal with
    | |- context [if ?c then _ else _] => destruct c
    end; simpl; tauto.
Qed.













(** ** Runs of the main engine *)

Section Runs.

Context {G : Type} `{RandomState G}.

Lemma for_each_invariant {S X : Type} (P : S -> Prop)
  (body : S -> X -> Rand G S) (xs : list X) :
  (forall s x g, P s -> P (fst (body s x g))) ->
  forall s g, P s -> P (fst (for_each xs body s g)).
Proof.
  intros Hbody. induction xs as [| x xs IH]; intros s g Hs; simpl.
  - exact Hs.
  - unfold bind. specialize (Hbody s x g Hs).
    destruct (body s x g) as [s' g']. apply IH. exact Hbody.
Qed.

Lemma intensity_range (self : Main.system) (a b : R) (g : G) :
  0 <= fst (Main._dialectical_conjunction_intensity self a b g) <= 1.
Proof.
  unfold Main._dialectical_conjunction_intensity, bind, ret.
  destruct (_ && _); destruct (np_random_randn g) as [z g']; simpl;
    apply np_clip_bounds; lra.
Qed.

Lemma np_clip_f_finite (x lo hi : R) :
  lo <= hi ->
  exists y, np_clip_f (Finite x) lo hi = Some y /\ lo <= y <= hi.
Proof.
  intros Hle. exists (np_clip x lo hi). split; [reflexivity |].
  apply np_clip_bounds. exact Hle.
Qed.

Lemma np_divide_finite (x y : R) : y <> 0 -> np_divide x y = Finite (x / y).
Proof.
  intros Hy. unfold np_divide. destruct (Req_dec_T y 0); [contradiction | reflexivity].
Qed.

Lemma risk_range (self : Main.system) (t ht a b ps : R) (g : G) :
  Main.aufhebung_threshold self <> 0 ->
  exists x,
    fst (Main._calculate_enhanced_XEPTQLRI self t ht a b ps g) = Some x
    /\ 0 <= x <= 3.0.
Proof.
  intros Hthr. unfold Main._calculate_enhanced_XEPTQLRI, bind, ret.
  destruct (np_random_randn g) as [z g']. simpl fst.
  rewrite np_divide_finite by assumption. simpl np_scale.
  destruct (50 <? length (Main.history_A self))%nat;
    [destruct (_ >? 0.7) |]; simpl np_scale; apply np_clip_f_finite; lra.
Qed.

Lemma paradox_score_range (self : Main.system) (a b t : R) :
  0 <= Main._calculate_paradox_score self a b t <= 1.
Proof. unfold Main._calculate_paradox_score. apply np_clip_bounds. lra. Qed.

(** One pass of the loop, field by field. *)
Lemma compute_step_fields (self : Main.system) (current_A : R) (step : Z)
  (g : G) :
  let r := fst (Main.compute_step self current_A step g) in
  let negation := Main._enhanced_dialectical_negation self current_A g in
  let anti := fst negation * (1 + 0.003 * IZR step) in
  let tension :=
    Main._dialectical_conjunction_intensity self current_A anti (snd negation) in
  Main.sr_anti_A r = anti
  /\ Main.sr_tension r = fst tension
  /\ (exists x, Main.sr_A r = np_clip x (-1.2) 1.2)
  /\ Main.sr_paradox_score r
     = Main._calculate_paradox_score self (Main.sr_A r) anti (fst tension)
  /\ Main.sr_stage r
     = Main._enhanced_stage_classification self (fst tension) (Main.sr_A r)
         anti (Main.sr_paradox_score r)
  /\ (exists ht g',
        Main.sr_XEPTQLRI r
        = fst (Main._calculate_enhanced_XEPTQLRI self (fst tension) ht
                 (Main.sr_A r) anti (Main.sr_paradox_score r) g')).
Proof.
  cbv zeta. unfold Main.compute_step, bind, ret.
  destruct (Main._enhanced_dialectical_negation self current_A g) as [n g1].
  cbn [fst snd].
  destruct (Main._dialectical_conjunction_intensity self current_A
              (n * (1 + 0.003 * IZR step)) g1) as [t g2].
  destruct (np_random_randn g2) as [z g3]. cbn [fst snd].
  match goal with
  | |- context [Main._calculate_enhanced_XEPTQLRI self t ?ht ?a ?b ?ps g3] =>
      destruct (Main._calculate_enhanced_XEPTQLRI self t ht a b ps g3)
        as [x g4] eqn:Hx
  end.
  cbn [fst snd Main.sr_A Main.sr_anti_A Main.sr_tension Main.sr_XEPTQLRI
       Main.sr_paradox_score Main.sr_stage].
  repeat split; try reflexivity.
  - eexists. reflexivity.
  - eexists. exists g3. rewrite Hx. reflexivity.
Qed.

Lemma compute_step_bounds (self : Main.system) (current_A : R) (step : Z)
  (g : G) :
  Main.aufhebung_threshold self <> 0 ->
  let r := fst (Main.compute_step self current_A step g) in
  -1.2 <= Main.sr_A r <= 1.2
  /\ 0 <= Main.sr_tension r <= 1
  /\ 0 <= Main.sr_paradox_score r <= 1
  /\ exists x, Main.sr_XEPTQLRI r = Some x /\ 0 <= x <= 3.0.
Proof.
  intros Hthr r.
  destruct (compute_step_fields self current_A step g)
    as [_ [Ht [[x HA] [Hps [_ [ht [g' Hrisk]]]]]]].
  fold r in Ht, HA, Hps, Hrisk.
  repeat split.
  - rewrite HA. apply np_clip_bounds. lra.
  - rewrite HA. apply np_clip_bounds. lra.
  - rewrite Ht. apply intensity_range.
  - rewrite Ht. apply intensity_range.
  - rewrite Hps. apply paradox_score_range.
  - rewrite Hps. apply paradox_score_range.
  - rewrite Hrisk. apply risk_range. exact Hthr.
Qed.

Lemma record_step_bounded (self : Main.system) (step : Z)
  (r : Main.step_record) :
  bounded_histories self ->
  -1.2 <= Main.sr_A r <= 1.2 ->
  0 <= Main.sr_tension r <= 1 ->
  0 <= Main.sr_paradox_score r <= 1 ->
  (exists x, Main.sr_XEPTQLRI r = Some x /\ 0 <= x <= 3.0) ->
  bounded_histories (Main.record_step self step r).
Proof.
  intros [HA [HT [HP HX]]] Ha Ht Hp Hx.
  unfold bounded_histories. cbn [Main.record_step Main.history_A
    Main.history_tension Main.history_paradox_scores Main.history_XEPTQLRI].
  repeat split; apply Forall_app; split; try assumption;
    constructor; auto.
Qed.

Lemma simulate_bounded (self : Main.system) (g : G) :
  Main.aufhebung_threshold self <> 0 ->
  bounded_histories self ->
  bounded_histories (fst (Main.simulate_enhanced_historical_process self g)).
Proof.
  intros Hthr Hb. unfold Main.simulate_enhanced_historical_process, bind, ret.
  pose proof (for_each_invariant
    (fun st : Main.system * R =>
       Main.aufhebung_threshold (fst st) <> 0 /\ bounded_histories (fst st))
    Main.loop_body (Main.steps_of (Main.horizon self))) as Hinv.
  specialize (Hinv ltac:(
    intros [s a] step g0 [Hs Hbs]; unfold Main.loop_body, bind, ret;
    cbn [fst snd];
    pose proof (compute_step_bounds s a step g0 Hs) as Hr; cbv zeta in Hr;
    destruct (Main.compute_step s a step g0) as [r g1]; cbn [fst snd] in *;
    split; [exact Hs |];
    destruct Hr as [H1 [H2 [H3 H4]]];
    apply record_step_bounded; assumption)).
  specialize (Hinv (self, Main.A self) g (conj Hthr Hb)).
  destruct (for_each _ _ _ g) as [st g']. cbn [fst] in *. tauto.
Qed.

(** *** One step of the denoising variant *)

Lemma denoise_negation_range (self : Denoise.system) (state : R) (g : G) :
  -1.5 <= fst (Denoise._dialectical_negation self state g) <= 1.5.
Proof.
  unfold Denoise._dialectical_negation, bind, ret.
  destruct (np_random_rand g) as [u g1].
  destruct (np_random_rand g1) as [v g2].
  destruct (np_random_randn g2) as [z g3]. cbn [fst].
  apply np_clip_bounds. lra.
Qed.

Lemma denoise_tension_range (a b : R) :
  0 <= Denoise._calculate_tension a b <= 1.
Proof. unfold Denoise._calculate_tension. apply np_clip_bounds. lra. Qed.

Lemma denoise_risk_range (self : Denoise.system) (t a b : R) (g : G) :
  Denoise.aufhebung_threshold self <> 0 ->
  exists x,
    fst (Denoise._calculate_XEPTQLRI self t a b g) = Some x /\ 0 <= x <= 3.5.
Proof.
  intros Hthr. unfold Denoise._calculate_XEPTQLRI, bind, ret.
  destruct (np_random_rand g) as [u g']. cbn [fst].
  rewrite np_divide_finite by assumption. simpl np_scale.
  apply np_clip_f_finite. lra.
Qed.

Lemma denoise_step_bounded (self : Denoise.system) (external_A_input : R)
  (g : G) :
  Denoise.aufhebung_threshold self <> 0 ->
  bounded_result (snd (fst (Denoise.simulate_step self external_A_input g))).
Proof.
  intros Hthr. unfold Denoise.simulate_step, bind, ret.
  cbn [Denoise.A Denoise.history_A Denoise.aufhebung_threshold].
  match goal with
  | |- context [Denoise._dialectical_negation ?s ?a g] =>
      pose proof (denoise_negation_range s a g) as Hn;
      destruct (Denoise._dialectical_negation s a g) as [n g1];
      pose proof (denoise_risk_range s
                    (Denoise._calculate_tension a n) a n g1 Hthr) as Hx;
      destruct (Denoise._calculate_XEPTQLRI s
                  (Denoise._calculate_tension a n) a n g1) as [x g2]
  end.
  cbn [fst snd] in *.
  destruct (Denoise.stages _) as [[name color] icon].
  unfold bounded_result.
  cbn [fst snd Denoise.sr_A Denoise.sr_anti_A Denoise.sr_tension
       Denoise.sr_XEPTQLRI].
  repeat split; try (apply np_clip_bounds; lra); try apply Hn;
    try apply denoise_tension_range.
  exact Hx.
Qed.

(** *** Runs of one step *)

Lemma simulate_one_step (self : Main.system) (g : G) :
  Main.horizon self = 1%Z ->
  fst (Main.simulate_enhanced_historical_process self g)
  = Main.record_step self 0
      (fst (Main.compute_step self (Main.A self) 0 g)).
Proof.
  intros Hh. unfold Main.simulate_enhanced_historical_process.
  rewrite Hh. change (Main.steps_of 1) with [0%Z].
  cbn [for_each]. unfold Main.loop_body, bind, ret. cbn [fst snd].
  destruct (Main.compute_step self (Main.A self) 0 g) as [r g1].
  reflexivity.
Qed.

Lemma risk_nan_at_zero_threshold (self : Main.system) (ht a b ps : R) (g : G) :
  Main.aufhebung_threshold self = 0 ->
  fst (Main._calculate_enhanced_XEPTQLRI self 0 ht a b ps g) = None.
Proof.
  intros Hthr. unfold Main._calculate_enhanced_XEPTQLRI, bind, ret.
  destruct (np_random_randn g) as [z g']. cbn [fst].
  unfold np_divide. rewrite Hthr.
  destruct (Req_dec_T 0 0) as [_ | Hne]; [| contradiction].
  destruct (Rlt_dec 0 _) as [Hpos | _]; [lra |].
  destruct (Rlt_dec _ 0) as [Hneg | _]; [lra |].
  cbn [np_scale].
  destruct (50 <? _)%nat; [destruct (_ >? 0.7) |]; reflexivity.
Qed.

Lemma intensity_zero_state (self : Main.system) (b : R) (g : G) :
  fst (Main._dialectical_conjunction_intensity self 0 b g) = 0.
Proof.
  unfold Main._dialectical_conjunction_intensity, bind, ret.
  rewrite Rmult_0_l, Rabs_R0.
  destruct (_ && _); destruct (np_random_randn g) as [z g']; cbn [fst];
    rewrite Rmult_0_l; apply np_clip_inside; lra.
Qed.

Lemma one_step_anti_A (self : Main.system) (g : G) :
  Main.horizon self = 1%Z ->
  Main.history_anti_A (fst (Main.simulate_enhanced_historical_process self g))
  = Main.history_anti_A self
    ++ [fst (Main._enhanced_dialectical_negation self (Main.A self) g)
        * (1 + 0.003 * 0)].
Proof.
  intros Hh. rewrite simulate_one_step by assumption.
  cbn [Main.record_step Main.history_anti_A].
  destruct (compute_step_fields self (Main.A self) 0 g) as [Hanti _].
  rewrite Hanti. reflexivity.
Qed.

Lemma one_step_zero_risk (self : Main.system) (g : G) :
  Main.horizon self = 1%Z ->
  Main.A self = 0 ->
  Main.aufhebung_threshold self = 0 ->
  Main.history_XEPTQLRI (fst (Main.simulate_enhanced_historical_process self g))
  = Main.history_XEPTQLRI self ++ [None].
Proof.
  intros Hh HA Hthr. rewrite simulate_one_step by assumption.
  cbn [Main.record_step Main.history_XEPTQLRI].
  destruct (compute_step_fields self (Main.A self) 0 g)
    as [_ [_ [_ [_ [_ [ht [g' Hrisk]]]]]]].
  rewrite Hrisk, HA, intensity_zero_state.
  rewrite risk_nan_at_zero_threshold by assumption. reflexivity.
Qed.

End Runs.

(** ** The bounds invariant *)

(** C1, as the code has it.  In a run of the main engine with a non-zero
    aufhebung_threshold every recorded A lies in [-1.2, 1.2], every tension
    and paradox score in [0,1] and every XEPTQLRI in [0, 3.0], provided the
    histories the run starts from do; anti_A is not clamped there.  In the
    denoising variant with a non-zero threshold every step returns A and
    anti_A in [-1.5, 1.5], a tension in [0,1] and XEPTQLRI in [0, 3.5]. *)
Theorem bounds_invariant :
  forall (G : Type) (RS : RandomState G) (m : Main.system)
         (d : Denoise.system) (external_A_input : R) (g : G),
    Main.aufhebung_threshold m <> 0 ->
    Denoise.aufhebung_threshold d <> 0 ->
    bounded_histories m ->
    bounded_histories (fst (Main.simulate_enhanced_historical_process m g))
    /\ bounded_result (snd (fst (Denoise.simulate_step d external_A_input g))).
Proof.
  intros G RS m d ext g Hm Hd Hb. split.
  - apply simulate_bounded; assumption.
  - apply denoise_step_bounded. exact Hd.
Qed.

Lemma bounds_invariant_witness :
  bounded_histories
    (fst (Main.simulate_enhanced_historical_process false_stability_system
            wide_noise_draws))
  /\ bounded_result
       (snd (fst (Denoise.simulate_step (Denoise.__init__ 0.3 200 0.85 "w")
                    0.4 wide_noise_draws))).
Proof.
  apply bounds_invariant.
  - simpl. lra.
  - simpl. lra.
  - repeat split; constructor.
Defined.

Lemma wide_noise_negation :
  fst (Main._enhanced_dialectical_negation wide_noise_system 1 wide_noise_draws)
  = -1.7.
Proof.
  unfold Main._enhanced_dialectical_negation, bind, ret. simpl. lra.
Qed.

(** No bound at all holds of anti_A in the main engine: the Gaussian draw
    of the negation enters it unclipped. *)
Lemma main_anti_A_unbounded (B : R) :
  exists (draws : tape) (x : R),
    Main.history_anti_A
      (fst (Main.simulate_enhanced_historical_process wide_noise_system draws))
    = [x]
    /\ x < - B.
Proof.
  exists [0.5; - (5 * (Rabs B + 1)); 0; 0; 0].
  exists (- 0.9 - (Rabs B + 1)). split.
  - rewrite one_step_anti_A by reflexivity.
    change (Main.history_anti_A wide_noise_system) with (@nil R).
    cbn [app]. f_equal.
    unfold Main._enhanced_dialectical_negation, bind, ret. simpl. lra.
  - pose proof (Rle_abs B). lra.
Qed.

(** C1 as stated fails in the main engine.  From state 1 at volatility 2,
    the one-step run whose draws are 0.5, -4, 0, 0, 0 records anti_A =
    -1.7, outside [-1.2, 1.2] and [-1.5, 1.5]; and from state 0 with a zero
    threshold the recorded XEPTQLRI is nan. *)
Lemma main_run_leaves_bounds :
  Main.history_anti_A
    (fst (Main.simulate_enhanced_historical_process wide_noise_system
            wide_noise_draws)) = [-1.7]
  /\ ~ (-1.5 <= -1.7 <= 1.5)
  /\ Main.history_XEPTQLRI
       (fst (Main.simulate_enhanced_historical_process zero_threshold_system
               wide_noise_draws)) = [None].
Proof.
  split; [| split].
  - rewrite one_step_anti_A by reflexivity.
    change (Main.A wide_noise_system) with 1.
    rewrite wide_noise_negation.
    change (Main.history_anti_A wide_noise_system) with (@nil R).
    cbn [app]. f_equal. lra.
  - lra.
  - rewrite one_step_zero_risk by reflexivity. reflexivity.
Qed.

(** ** The report *)

Section Report.

Context {G : Type} `{RandomState G}.




Lemma diagnosis_needs_100_steps (self : Main.system) :
  (length (Main.history_A self) < 100)%nat ->
  Main._determine_true_system_state self = Main.INSUFFICIENT_DATA.
Proof.
  intros Hlen. unfold Main._determine_true_system_state.
  apply Nat.ltb_lt in Hlen. rewrite Hlen. reflexivity.
Qed.

End Report.



(** ** Construction *)

(** On a complete object the attribute-reading negation is the method. *)
Lemma negation_getattr_complete (G : Type) `{RandomState G}
  (self : Main.system) (state : R) (g : G) :
  Main._enhanced_dialectical_negation_getattr (Main.instance_of self) state g
  = (Ok (fst (Main._enhanced_dialectical_negation self state g)),
     snd (Main._enhanced_dialectical_negation self state g)).
Proof.
  unfold Main._enhanced_dialectical_negation_getattr,
    Main._enhanced_dialectical_negation, bind, ret.
  cbn [Main.instance_of Main.i_history_A Main.i_history_paradox_scores
       Main.i_volatility].
  destruct (np_random_rand g) as [u g1].
  destruct (_ && _).
  - destruct (np_random_randn g1) as [z g2].
    destruct (np_random_randn g2) as [z' g3]. reflexivity.
  - destruct (np_random_randn g1) as [z g2]. reflexivity.
Qed.




(** ** Determinism *)

Section Determinism.

Context {G : Type} `{RandomState G}.






End Determinism.



(** * Further properties of the two engines *)

(** Turns the boolean comparisons among the hypotheses into inequalities. *)
Ltac props :=
  repeat match goal with
    | H : (_ >? _) = true |- _ => apply gtb_spec in H
    | H : (_ >? _) = false |- _ => apply gtb_spec_false in H
    | H : (_ <? _) = true |- _ => apply ltb_spec in H
    | H : (_ <? _) = false |- _ => apply ltb_spec_false in H
    end.

(** Splits on every test of the goal, keeping the outcome of each. *)
Ltac tests :=
  repeat match goal with
    | |- context [if ?c then _ else _] => destruct c eqn:?
    end.

(** ** The classifiers *)

(** X1.  The false-stability rule.  With a tension below 0.25 and one pole
    magnitude above 0.75, both classifiers answer tau7 unless the paradox
    rule has fired first, that is unless both pole magnitudes exceed 0.8
    (main engine) or 0.85 (denoising variant), when they answer tau6. *)
Theorem false_stability_rule_gives_tau7 :
  forall (m : Main.system) (d : Denoise.system)
         (tension current_A current_anti_A paradox_score : R),
    tension < 0.25 ->
    Rabs current_A > 0.75 \/ Rabs current_anti_A > 0.75 ->
    Main._enhanced_stage_classification m tension current_A current_anti_A
      paradox_score
    = (if (Rabs current_A >? 0.8) && (Rabs current_anti_A >? 0.8)
       then tau6 else tau7)
    /\ Denoise._classify_stage d tension current_A current_anti_A
       = (if (Rabs current_A >? 0.85) && (Rabs current_anti_A >? 0.85)
          then tau6 else tau7).
Proof.
  intros m d t a b ps Ht Hpole.
  unfold Main._enhanced_stage_classification, Denoise._classify_stage,
    Main.paradox_rule, Denoise.paradox_rule, Main.false_stability_rule,
    Denoise.false_stability_rule.
  rewrite (ltb_true t 0.4), (ltb_true t 0.3), (ltb_true t 0.25) by lra.
  rewrite !andb_true_r. cbn [andb].
  assert (Hm : (Rabs a >? 0.7) || (Rabs b >? 0.7) = true).
  { destruct Hpole; [rewrite (gtb_true (Rabs a)) by lra
                    | rewrite (gtb_true (Rabs b)) by lra];
      [reflexivity | apply orb_true_r]. }
  assert (Hd : (Rabs a >? 0.75) || (Rabs b >? 0.75) = true).
  { destruct Hpole; [rewrite (gtb_true (Rabs a)) by lra
                    | rewrite (gtb_true (Rabs b)) by lra];
      [reflexivity | apply orb_true_r]. }
  rewrite Hm, Hd. split.
  - destruct ((Rabs a >? 0.8) && (Rabs b >? 0.8)); reflexivity.
  - destruct ((Rabs a >? 0.85) && (Rabs b >? 0.85)); reflexivity.
Qed.

Lemma false_stability_rule_gives_tau7_witness :
  Main._enhanced_stage_classification false_stability_system 0.1 0.85 (-0.6)
    0.5
  = (if (Rabs 0.85 >? 0.8) && (Rabs (-0.6) >? 0.8) then tau6 else tau7)
  /\ Denoise._classify_stage (Denoise.__init__ 0.85 100 0.8 "w") 0.1 0.85
       (-0.6)
     = (if (Rabs 0.85 >? 0.85) && (Rabs (-0.6) >? 0.85) then tau6 else tau7).
Proof.
  apply false_stability_rule_gives_tau7.
  - lra.
  - left. rewrite Rabs_val_pos by lra. lra.
Defined.

(** X2.  The tension bands never send a higher tension to a lower stage:
    when no rule fires, the stage index grows with the tension, in both
    engines and for every threshold. *)
Theorem tension_band_monotone :
  forall (m : Main.system) (d : Denoise.system) (t1 t2 : R),
    t1 <= t2 ->
    (stage_index (Main.tension_band m t1)
     <= stage_index (Main.tension_band m t2))%Z
    /\ (stage_index (Denoise.tension_band d t1)
        <= stage_index (Denoise.tension_band d t2))%Z.
Proof.
  intros m d t1 t2 Hle.
  unfold Main.tension_band, Denoise.tension_band.
  split; tests; props; cbn [stage_index]; try lia; exfalso; lra.
Qed.

Lemma tension_band_monotone_witness :
  (stage_index (Main.tension_band false_stability_system 0.2)
   <= stage_index (Main.tension_band false_stability_system 0.9))%Z
  /\ (stage_index (Denoise.tension_band (Denoise.__init__ 0.3 100 0.8 "w") 0.2)
      <= stage_index
           (Denoise.tension_band (Denoise.__init__ 0.3 100 0.8 "w") 0.9))%Z.
Proof.
  apply tension_band_monotone. lra.
Defined.

(** X3.  Stage tau4 needs a threshold above the last fixed band: with
    aufhebung_threshold at most 0.75 the main engine never answers tau4,
    and with it at most 0.60 neither does the denoising variant. *)
Theorem saturation_stage_needs_high_threshold :
  forall (m : Main.system) (d : Denoise.system)
         (tension current_A current_anti_A paradox_score : R),
    Main.aufhebung_threshold m <= 0.75 ->
    Denoise.aufhebung_threshold d <= 0.60 ->
    Main._enhanced_stage_classification m tension current_A current_anti_A
      paradox_score <> tau4
    /\ Denoise._classify_stage d tension current_A current_anti_A <> tau4.
Proof.
  intros m d t a b ps Hm Hd.
  unfold Main._enhanced_stage_classification, Denoise._classify_stage,
    Main.tension_band, Denoise.tension_band.
  split; tests; props; try discriminate; exfalso; lra.
Qed.

Lemma saturation_stage_needs_high_threshold_witness :
  Main._enhanced_stage_classification dynamic_chaos_system 0.72 0.5 (-0.5) 0.5
  <> tau4
  /\ Denoise._classify_stage (Denoise.__init__ 0.3 100 0.6 "w") 0.72 0.5 (-0.5)
     <> tau4.
Proof.
  apply saturation_stage_needs_high_threshold; simpl; lra.
Defined.

(** ** Paradox events *)

Lemma paradox_score_above_09 (self : Main.system) (a b t : R) :
  Rabs a <= 1.2 ->
  0.9 < Main._calculate_paradox_score self a b t ->
  1.175 < Main.extremity_score a b
  /\ t < 0.3
  /\ (10 < length (Main.history_A self))%nat.
Proof.
  intros Ha Hps. unfold Main._calculate_paradox_score in Hps.
  assert (Hraw : 0.9 <
    Main.extremity_score a b * 0.4 + Main.symmetry_score a b * 0.3
    + Main.tension_paradox a b t * 0.2 + Main.persistence_score self * 0.1).
  { destruct (Rle_dec (Main.extremity_score a b * 0.4
                       + Main.symmetry_score a b * 0.3
                       + Main.tension_paradox a b t * 0.2
                       + Main.persistence_score self * 0.1) 0.9) as [Hle | Hgt];
      [| lra].
    pose proof (np_clip_le _ 0 1 0.9 ltac:(lra) Hle). lra. }
  pose proof (extremity_score_le a b 1.2 Ha) as He.
  pose proof (symmetry_score_le_1 a b) as Hs.
  pose proof (persistence_score_range self) as Hp.
  pose proof (tension_paradox_range a b t) as Htp.
  assert (Ht : t < 0.3).
  { destruct (Rlt_dec t 0.3) as [Hlt | Hge]; [exact Hlt |].
    rewrite tension_paradox_high_tension in Hraw by lra. lra. }
  assert (Hlen : (10 < length (Main.history_A self))%nat).
  { unfold Main.persistence_score in Hraw, Hp.
    destruct (10 <? length (Main.history_A self))%nat eqn:Hl.
    - apply Nat.ltb_lt. exact Hl.
    - lra. }
  repeat split; try assumption. lra.
Qed.

Lemma extremity_score_below_poles (a b c : R) :
  c < Main.extremity_score a b -> c < Rabs a /\ c < Rabs b.
Proof.
  unfold Main.extremity_score, Rmin.
  destruct (Rle_dec (Rabs a) (Rabs b)); lra.
Qed.

(** X4.  A META_PARADOX event is all but out of reach.  For a recorded
    state (|A| within the clamp 1.2), the step that logs one has both pole
    magnitudes above 1.175, a tension below 0.3 and more than 10 steps of
    history behind it; and it logs a SIMULTANEOUS_EXTREMITY event as
    well. *)
Theorem meta_paradox_needs_extreme_poles :
  forall (self : Main.system) (step : Z) (current_A current_anti_A tension : R)
         (stage_idx : stage) (e : Main.paradox_event),
    Rabs current_A <= 1.2 ->
    In e (Main._detect_paradox_events step current_A current_anti_A
            (Main._calculate_paradox_score self current_A current_anti_A tension)
            stage_idx) ->
    Main.pe_type e = Main.META_PARADOX ->
    1.175 < Rabs current_A
    /\ 1.175 < Rabs current_anti_A
    /\ tension < 0.3
    /\ (10 < length (Main.history_A self))%nat
    /\ exists e',
         In e' (Main._detect_paradox_events step current_A current_anti_A
                  (Main._calculate_paradox_score self current_A current_anti_A
                     tension) stage_idx)
         /\ Main.pe_type e' = Main.SIMULTANEOUS_EXTREMITY.
Proof.
  intros self step a b t stg e Ha Hin Hty.
  assert (Hps : 0.9 < Main._calculate_paradox_score self a b t).
  { unfold Main._detect_paradox_events in Hin.
    destruct (Main._calculate_paradox_score self a b t >? 0.9) eqn:Hgt.
    - apply gtb_spec in Hgt. exact Hgt.
    - exfalso. rewrite app_nil_r in Hin.
      apply in_app_or in Hin. destruct Hin as [Hin | Hin].
      + destruct (_ && _); [| contradiction].
        destruct Hin as [Heq | []]. subst e. discriminate.
      + destruct (stage_eq_dec stg tau7); [| contradiction].
        destruct Hin as [Heq | []]. subst e. discriminate. }
  destruct (paradox_score_above_09 self a b t Ha Hps) as [Hext [Ht Hlen]].
  destruct (extremity_score_below_poles a b 1.175 Hext) as [Hpa Hpb].
  repeat split; try assumption.
  unfold Main._detect_paradox_events.
  rewrite (gtb_true (Rabs a) 0.85), (gtb_true (Rabs b) 0.85) by lra.
  cbn [andb]. eexists. split; [left; reflexivity | reflexivity].
Qed.

Lemma extreme_poles_score_091 :
  Main._calculate_paradox_score extreme_poles_system 1.2 (-1.2) 0.1 = 0.91.
Proof.
  unfold Main._calculate_paradox_score.
  rewrite persistence_code_extreme_poles.
  unfold Main.tension_paradox, Main.extremity_score, Main.symmetry_score.
  rewrite (Rabs_val_pos 1.2) by lra. rewrite (Rabs_val_neg (-1.2)) by lra.
  replace (- -1.2) with 1.2 by lra.
  replace (1.2 - 1.2) with 0 by lra. rewrite Rabs_R0.
  unfold Rmin. destruct (Rle_dec 1.2 1.2); [| lra].
  cmp. cbn [andb]. rewrite np_clip_inside by lra. lra.
Qed.

Lemma meta_paradox_needs_extreme_poles_witness :
  1.175 < Rabs 1.2
  /\ 1.175 < Rabs (-1.2)
  /\ 0.1 < 0.3
  /\ (10 < length (Main.history_A extreme_poles_system))%nat
  /\ exists e',
       In e' (Main._detect_paradox_events 11 1.2 (-1.2)
                (Main._calculate_paradox_score extreme_poles_system 1.2 (-1.2)
                   0.1) tau6)
       /\ Main.pe_type e' = Main.SIMULTANEOUS_EXTREMITY.
Proof.
  apply (meta_paradox_needs_extreme_poles extreme_poles_system 11 1.2 (-1.2)
           0.1 tau6
           {| Main.pe_step := 11; Main.pe_type := Main.META_PARADOX;
              Main.pe_A_value := 1.2; Main.pe_anti_A_value := -1.2;
              Main.pe_paradox_score :=
                Main._calculate_paradox_score extreme_poles_system 1.2 (-1.2)
                  0.1;
              Main.pe_stage := Main.stages tau6 |}).
  - rewrite Rabs_val_pos by lra. lra.
  - unfold Main._detect_paradox_events.
    rewrite extreme_poles_score_091.
    rewrite (Rabs_val_pos 1.2) by lra. rewrite (Rabs_val_neg (-1.2)) by lra.
    cmp. cbn [andb]. destruct (stage_eq_dec tau6 tau7); [discriminate |].
    cbn [app]. right. left. reflexivity.
  - reflexivity.
Defined.

(** ** What a simulation does to the object *)

Section Effects.

Context {G : Type} `{RandomState G}.

Lemma risk_event_of_sound (step : Z) (r : Main.step_record) :
  Forall sound_risk_event (Main.risk_event_of step r)
  /\ (length (Main.risk_event_of step r) <= 1)%nat.
Proof.
  unfold Main.risk_event_of.
  destruct (Main.sr_XEPTQLRI r) as [x |] eqn:Hx; cbn [gtb_f].
  - destruct (x >? 0.7) eqn:H07; [| split; [constructor | cbn; lia]].
    split; [| cbn; lia].
    constructor; [| constructor].
    exists x. cbn [Main.re_XEPTQLRI Main.re_true_XEPTQLRI Main.re_risk].
    props. repeat split; try assumption.
    + destruct (x >? 1.0) eqn:H10; props; [trivial | discriminate].
    + intros Hx1. rewrite gtb_true by assumption. reflexivity.
  - split; [constructor | cbn; lia].
Qed.

Lemma detect_paradox_events_length (step : Z) (a b ps : R) (stg : stage) :
  (length (Main._detect_paradox_events step a b ps stg) <= 3)%nat.
Proof.
  unfold Main._detect_paradox_events. rewrite !length_app.
  destruct (_ && _); destruct (stage_eq_dec stg tau7);
    destruct (ps >? 0.9); cbn [length]; lia.
Qed.

Lemma record_step_effect (self : Main.system) (step : Z)
  (r : Main.step_record) :
  loop_effect self (Main.record_step self step r) 1.
Proof.
  unfold loop_effect. split; [reflexivity |]. split; [| split].
  - unfold recorded. intros n Hn.
    cbn [Main.record_step Main.history_A Main.history_anti_A
         Main.history_tension Main.history_XEPTQLRI Main.history_true_XEPTQLRI
         Main.history_stages Main.history_true_stages
         Main.history_paradox_scores Main.phase_history].
    rewrite !length_app. cbn [length]. intuition lia.
  - exists (Main.risk_event_of step r).
    destruct (risk_event_of_sound step r) as [Hs Hl].
    repeat split; assumption.
  - eexists. split; [reflexivity |].
    pose proof (detect_paradox_events_length step (Main.sr_A r)
                  (Main.sr_anti_A r) (Main.sr_paradox_score r)
                  (Main.sr_stage r)). lia.
Qed.

Lemma loop_effect_refl (self : Main.system) : loop_effect self self 0.
Proof.
  unfold loop_effect. split; [reflexivity |]. split; [| split].
  - intros n Hn. rewrite Nat.add_0_r. exact Hn.
  - exists []. rewrite app_nil_r. repeat split; [cbn; lia | constructor].
  - exists []. rewrite app_nil_r. split; [reflexivity | cbn; lia].
Qed.

Lemma loop_effect_trans (s1 s2 s3 : Main.system) (p q : nat) :
  loop_effect s1 s2 p -> loop_effect s2 s3 q -> loop_effect s1 s3 (p + q).
Proof.
  intros [Hc1 [Hr1 [[ra1 [Hra1 [Hl1 Hs1]]] [pa1 [Hpa1 Hpl1]]]]]
         [Hc2 [Hr2 [[ra2 [Hra2 [Hl2 Hs2]]] [pa2 [Hpa2 Hpl2]]]]].
  unfold loop_effect. split; [congruence |]. split; [| split].
  - intros n Hn. rewrite Nat.add_assoc. apply Hr2, Hr1, Hn.
  - exists (ra1 ++ ra2). rewrite Hra2, Hra1, app_assoc.
    repeat split.
    + rewrite length_app. lia.
    + apply Forall_app. split; assumption.
  - exists (pa1 ++ pa2). rewrite Hpa2, Hpa1, app_assoc.
    split; [reflexivity |]. rewrite length_app. lia.
Qed.

Lemma for_each_effect (xs : list Z) (st : Main.system * R) (g : G) :
  loop_effect (fst st) (fst (fst (for_each xs Main.loop_body st g)))
    (length xs).
Proof.
  revert st g. induction xs as [| x xs IH]; intros st g; cbn [for_each length].
  - apply loop_effect_refl.
  - unfold bind.
    assert (Hstep : loop_effect (fst st) (fst (fst (Main.loop_body st x g))) 1).
    { unfold Main.loop_body, bind, ret.
      destruct (Main.compute_step (fst st) (snd st) x g) as [r g1].
      cbn [fst]. apply record_step_effect. }
    destruct (Main.loop_body st x g) as [st1 g1]. cbn [fst] in Hstep.
    change (S (length xs)) with (1 + length xs)%nat.
    eapply loop_effect_trans; [exact Hstep | apply IH].
Qed.

Lemma simulate_effect (self : Main.system) (g : G) :
  loop_effect self (fst (Main.simulate_enhanced_historical_process self g))
    (Z.to_nat (Main.horizon self)).
Proof.
  unfold Main.simulate_enhanced_historical_process, bind, ret.
  pose proof (for_each_effect (Main.steps_of (Main.horizon self))
                (self, Main.A self) g) as Heff.
  unfold Main.steps_of in Heff at 2. rewrite length_map, length_seq in Heff.
  destruct (for_each _ _ _ g) as [st g']. exact Heff.
Qed.

End Effects.

(** X5.  A simulation appends exactly one entry per step to every history
    (max(horizon, 0) entries each) and leaves the configuration and the two
    state attributes as they were: the object's A and anti_A are never
    updated, so a second simulation starts again from the initial state
    while the histories keep growing. *)
Theorem simulation_records_horizon_steps :
  forall (G : Type) (RS : RandomState G) (self : Main.system) (g : G)
         (n : nat),
    recorded self n ->
    recorded (fst (Main.simulate_enhanced_historical_process self g))
      (n + Z.to_nat (Main.horizon self))
    /\ configuration (fst (Main.simulate_enhanced_historical_process self g))
       = configuration self.
Proof.
  intros G RS self g n Hn.
  destruct (simulate_effect self g) as [Hc [Hr _]].
  split; [apply Hr, Hn | exact Hc].
Qed.

Lemma simulation_records_horizon_steps_witness :
  recorded
    (fst (Main.simulate_enhanced_historical_process extreme_poles_system
            wide_noise_draws))
    (11 + Z.to_nat (Main.horizon extreme_poles_system))
  /\ configuration
       (fst (Main.simulate_enhanced_historical_process extreme_poles_system
               wide_noise_draws))
     = configuration extreme_poles_system.
Proof.
  apply simulation_records_horizon_steps.
  repeat split.
Defined.

(** X6.  The event logs are append-only.  A simulation keeps every risk
    and paradox event already logged, adds at most one risk event and at
    most three paradox events per step, and every risk event it adds
    carries a finite index above 0.7, marked CRITICAL exactly when the
    index exceeds 1.0. *)
Theorem event_logs_append_only :
  forall (G : Type) (RS : RandomState G) (self : Main.system) (g : G),
    (exists added,
       Main.risk_events (fst (Main.simulate_enhanced_historical_process self g))
       = Main.risk_events self ++ added
       /\ (length added <= Z.to_nat (Main.horizon self))%nat
       /\ Forall sound_risk_event added)
    /\ (exists added,
          Main.paradox_events
            (fst (Main.simulate_enhanced_historical_process self g))
          = Main.paradox_events self ++ added
          /\ (length added <= 3 * Z.to_nat (Main.horizon self))%nat).
Proof.
  intros G RS self g.
  destruct (simulate_effect self g) as [_ [_ Hev]]. exact Hev.
Qed.

(** X7.  The closing summary of a simulation looks up the last recorded
    stage.  On an object whose histories hold [n] entries each, the
    simulation raises IndexError exactly when nothing was recorded before
    and the horizon is not positive; in every other case it returns the
    simulated object. *)
Theorem closing_summary_needs_a_step :
  forall (G : Type) (RS : RandomState G) (self : Main.system) (g : G)
         (n : nat),
    recorded self n ->
    ((exists e, fst (Main.simulate_then_summarise self g) = inr e)
     <-> n = 0%nat /\ (Main.horizon self <= 0)%Z)
    /\ ((0 < n + Z.to_nat (Main.horizon self))%nat ->
        fst (Main.simulate_then_summarise self g)
        = inl (fst (Main.simulate_enhanced_historical_process self g))).
Proof.
  intros G RS self g n Hn.
  destruct (simulate_effect self g) as [_ [Hr _]].
  specialize (Hr n Hn).
  unfold Main.simulate_then_summarise, bind, ret.
  destruct (Main.simulate_enhanced_historical_process self g) as [self' g'].
  cbn [fst] in Hr |- *.
  destruct Hr as [_ [_ [_ [_ [_ [Hst [_ [Hps _]]]]]]]].
  unfold Main.closing_summary.
  rewrite <- (length_rev (Main.history_stages self')) in Hst.
  rewrite <- (length_rev (Main.history_paradox_scores self')) in Hps.
  destruct (rev (Main.history_stages self')) as [| s ss];
    destruct (rev (Main.history_paradox_scores self')) as [| q qs];
    cbn [length fst] in *; split.
  - split; [intros _; lia | intros _; eexists; reflexivity].
  - intros Hpos. lia.
  - split; [intros _; lia | intros _; eexists; reflexivity].
  - intros Hpos. lia.
  - split; [intros _; lia | intros _; eexists; reflexivity].
  - intros Hpos. lia.
  - split; [intros [e He]; discriminate | intros [Hn0 Hh]; lia].
  - intros _. reflexivity.
Qed.

Lemma closing_summary_needs_a_step_witness :
  ((exists e,
      fst (Main.simulate_then_summarise
             (Main.initialised 0.3 0 0.85 0.03 "Empty" (-0.3))
             wide_noise_draws) = inr e)
   <-> 0%nat = 0%nat
       /\ (Main.horizon (Main.initialised 0.3 0 0.85 0.03 "Empty" (-0.3))
           <= 0)%Z)
  /\ ((0 < 0 + Z.to_nat
                 (Main.horizon
                    (Main.initialised 0.3 0 0.85 0.03 "Empty" (-0.3))))%nat ->
      fst (Main.simulate_then_summarise
             (Main.initialised 0.3 0 0.85 0.03 "Empty" (-0.3))
             wide_noise_draws)
      = inl (fst (Main.simulate_enhanced_historical_process
                    (Main.initialised 0.3 0 0.85 0.03 "Empty" (-0.3))
                    wide_noise_draws))).
Proof.
  apply closing_summary_needs_a_step.
  repeat split.
Defined.

(** ** Phases *)

Lemma first_phase_found (step : Z) (p : nat) (boundaries : list Z) :
  (exists b, In b boundaries /\ (step < b)%Z) ->
  (p <= Main.first_phase step p boundaries < p + length boundaries)%nat.
Proof.
  revert p. induction boundaries as [| b rest IH]; intros p [b0 [Hin Hlt]].
  - contradiction.
  - cbn [Main.first_phase length].
    destruct (step <? b)%Z eqn:Hsb; [lia |].
    apply Z.ltb_ge in Hsb.
    destruct Hin as [Heq | Hin]; [subst b0; lia |].
    specialize (IH (S p) (ex_intro _ b0 (conj Hin Hlt))). lia.
Qed.

Lemma first_phase_monotone (step step' : Z) (p : nat) (boundaries : list Z) :
  (step <= step')%Z ->
  (exists b, In b boundaries /\ (step' < b)%Z) ->
  (Main.first_phase step p boundaries
   <= Main.first_phase step' p boundaries)%nat.
Proof.
  intros Hle. revert p.
  induction boundaries as [| b rest IH]; intros p [b0 [Hin Hlt]].
  - contradiction.
  - pose proof (first_phase_found step' p (b :: rest)
                  (ex_intro _ b0 (conj Hin Hlt))) as Hfound.
    cbn [Main.first_phase] in *.
    destruct (step <? b)%Z eqn:Hsb; [lia |].
    apply Z.ltb_ge in Hsb.
    destruct (step' <? b)%Z eqn:Hsb'; [apply Z.ltb_lt in Hsb'; lia |].
    apply Z.ltb_ge in Hsb'.
    destruct Hin as [Heq | Hin]; [subst b0; lia |].
    apply IH. exists b0. split; assumption.
Qed.

(** X8.  Within the horizon the phase of a step is one of the seven
    (index at most 6, so the phase tables are never missed) and never
    decreases from one step to a later one. *)
Theorem phase_never_decreases :
  forall (self : Main.system) (step step' : Z),
    (step <= step')%Z ->
    (step' < Main.horizon self)%Z ->
    (Main.first_phase step 0 (Main.phase_boundaries self)
     <= Main.first_phase step' 0 (Main.phase_boundaries self) <= 6)%nat.
Proof.
  intros self step step' Hle Hlt.
  assert (Hex : exists b, In b (Main.phase_boundaries self) /\ (step' < b)%Z).
  { exists (Main.horizon self). split; [| exact Hlt].
    unfold Main.phase_boundaries. cbn [In]. tauto. }
  split.
  - apply first_phase_monotone; assumption.
  - pose proof (first_phase_found step' 0 (Main.phase_boundaries self) Hex).
    unfold Main.phase_boundaries in *. cbn [length] in *. lia.
Qed.

Lemma phase_never_decreases_witness :
  (Main.first_phase 10 0 (Main.phase_boundaries false_stability_system)
   <= Main.first_phase 170 0 (Main.phase_boundaries false_stability_system)
   <= 6)%nat.
Proof.
  apply phase_never_decreases; simpl; lia.
Defined.

(** ** Risk without tension, construction *)

(** X9.  No tension, no risk: with a non-zero threshold both engines
    return a risk index of exactly 0 at tension 0, whatever the poles, the
    trend, the paradox score and the draws. *)
Theorem zero_tension_zero_risk :
  forall (G : Type) (RS : RandomState G) (m : Main.system)
         (d : Denoise.system)
         (historical_trend current_A current_anti_A paradox_score : R) (g : G),
    Main.aufhebung_threshold m <> 0 ->
    Denoise.aufhebung_threshold d <> 0 ->
    fst (Main._calculate_enhanced_XEPTQLRI m 0 historical_trend current_A
           current_anti_A paradox_score g) = Some 0
    /\ fst (Denoise._calculate_XEPTQLRI d 0 current_A current_anti_A g)
       = Some 0.
Proof.
  intros G RS m d ht a b ps g Hm Hd. split.
  - unfold Main._calculate_enhanced_XEPTQLRI, bind, ret.
    destruct (np_random_randn g) as [z g']. cbn [fst].
    rewrite np_divide_finite by assumption.
    rewrite !Rmult_0_l. unfold Rdiv. rewrite Rmult_0_l.
    cbn [np_scale]. rewrite Rmult_0_l.
    destruct (50 <? _)%nat; [destruct (_ >? 0.7) |]; cbn [np_scale np_clip_f];
      rewrite ?Rmult_0_l; f_equal; apply np_clip_inside; lra.
  - unfold Denoise._calculate_XEPTQLRI, bind, ret.
    destruct (np_random_rand g) as [u g']. cbn [fst].
    rewrite np_divide_finite by assumption.
    unfold np_power at 1. destruct (Rlt_dec 0 0) as [Hlt | _]; [lra |].
    rewrite !Rmult_0_l. unfold Rdiv. rewrite Rmult_0_l.
    cbn [np_scale np_clip_f]. rewrite Rmult_0_l.
    f_equal. apply np_clip_inside. lra.
Qed.

Lemma zero_tension_zero_risk_witness :
  fst (Main._calculate_enhanced_XEPTQLRI false_stability_system 0 0.2 0.9
         (-0.9) 0.66 wide_noise_draws) = Some 0
  /\ fst (Denoise._calculate_XEPTQLRI (Denoise.__init__ 0.3 100 0.8 "w") 0 0.9
            (-0.9) wide_noise_draws) = Some 0.
Proof.
  apply zero_tension_zero_risk; simpl; lra.
Defined.

(** X10.  No object of the main engine can be built: for every argument
    and every generator state the constructor raises AttributeError for
    [history_A], having consumed one draw after seeding, and
    [quick_analysis] passes the exception on without simulating. *)
Theorem construction_always_raises :
  forall (G : Type) (RS : RandomState G) (initial_A : R) (horizon : Z)
         (threshold volatility : R) (name : string) (seed : option Z) (g : G),
    Main.__init__ initial_A horizon threshold volatility name seed g
    = (Raise (AttributeError "history_A"),
       snd (np_random_rand
              (match seed with Some s => np_random_seed s | None => g end)))
    /\ fst (Main.quick_analysis initial_A horizon threshold volatility name
              seed g)
       = Raise (AttributeError "history_A").
Proof.
  intros G RS a h thr vol name seed g.
  assert (Hinit :
    Main.__init__ a h thr vol name seed g
    = (Raise (AttributeError "history_A"),
       snd (np_random_rand
              (match seed with Some s => np_random_seed s | None => g end)))).
  { unfold Main.__init__, Main._enhanced_dialectical_negation_getattr,
      Main.configured, bind, ret.
    cbn [Main.i_history_A].
    destruct (np_random_rand _) as [u g1]. reflexivity. }
  split; [exact Hinit |].
  unfold Main.quick_analysis, bind. rewrite Hinit. reflexivity.
Qed.

(** ** The report of the main engine *)

Lemma np_sum_nonneg (l : list R) : Forall (fun x => 0 <= x) l -> 0 <= np_sum l.
Proof.
  induction 1 as [| x l Hx Hl IH]; cbn [np_sum fold_right]; [lra |].
  unfold np_sum in IH. lra.
Qed.

Lemma np_mean_nonneg (l : list R) :
  Forall (fun x => 0 <= x) l -> 0 <= np_mean l.
Proof.
  intros Hl. unfold np_mean. pose proof (np_sum_nonneg l Hl) as Hs.
  destruct l as [| x l'].
  - cbn [length INR]. unfold Rdiv. rewrite Rinv_0. lra.
  - apply Rmult_le_pos; [exact Hs |].
    apply Rlt_le, Rinv_0_lt_compat, lt_0_INR. cbn [length]. lia.
Qed.

Lemma np_mean_abs_nonneg (l : list R) : 0 <= np_mean (map Rabs l).
Proof.
  apply np_mean_nonneg, Forall_forall. intros x Hin.
  apply in_map_iff in Hin. destruct Hin as [y [Hy _]]. subst x.
  apply Rabs_pos.
Qed.

(** X11.  The stability-deception index lies in [0,1]; it is 0 or above
    0.35, never in between; and it is 0 while fewer than 50 risk values are
    recorded. *)
Theorem stability_deception_range :
  forall self : Main.system,
    0 <= Main._calculate_stability_deception_index self <= 1
    /\ (Main._calculate_stability_deception_index self = 0
        \/ 0.35 < Main._calculate_stability_deception_index self)
    /\ ((length (Main.history_XEPTQLRI self) < 50)%nat ->
        Main._calculate_stability_deception_index self = 0).
Proof.
  intros self. unfold Main._calculate_stability_deception_index.
  pose proof (np_mean_abs_nonneg (last_n 50 (Main.history_A self))) as HA.
  pose proof (np_mean_abs_nonneg (last_n 50 (Main.history_anti_A self))) as HB.
  destruct (length (Main.history_XEPTQLRI self) <? 50)%nat eqn:Hlen.
  - repeat split; lra.
  - apply Nat.ltb_ge in Hlen.
    destruct (ltb_f _ 0.5); [| repeat split; try lra; intros; lia].
    destruct (_ || _) eqn:Hor; [| repeat split; try lra; intros; lia].
    apply orb_true_iff in Hor. unfold Rmin.
    destruct (Rle_dec 1.0 _); destruct Hor as [Hor | Hor]; props;
      repeat split; try lra; intros; lia.
Qed.

(** X12.  The diagnosis is INSUFFICIENT_DATA exactly while fewer than 100
    steps are recorded: from 100 steps on the decision tree always
    answers. *)
Theorem diagnosis_insufficient_iff :
  forall self : Main.system,
    Main._determine_true_system_state self = Main.INSUFFICIENT_DATA
    <-> (length (Main.history_A self) < 100)%nat.
Proof.
  intros self. split.
  - unfold Main._determine_true_system_state.
    destruct (length (Main.history_A self) <? 100)%nat eqn:Hlen.
    + intros _. apply Nat.ltb_lt. exact Hlen.
    + tests; discriminate.
  - apply diagnosis_needs_100_steps.
Qed.

(** X13.  What a TRUE_STABILITY diagnosis vouches for: at least 100
    recorded steps; over the last 100 of them a finite mean risk index
    below 0.3, at most 30 percent of the states beyond 0.8 in magnitude, at
    most 60 percent of the paradox scores above 0.7, and a stage standard
    deviation of at most 2. *)
Theorem true_stability_vouches :
  forall self : Main.system,
    Main._determine_true_system_state self = Main.TRUE_STABILITY ->
    (100 <= length (Main.history_A self))%nat
    /\ (exists mean_risk,
          np_mean_f (last_n 100 (Main.history_XEPTQLRI self)) = Some mean_risk
          /\ mean_risk < 0.3)
    /\ np_mean (map (fun x => b2r (Rabs x >? 0.8))
                    (last_n 100 (Main.history_A self))) <= 0.3
    /\ np_mean (map (fun p => b2r (p >? 0.7))
                    (last_n 100 (Main.history_paradox_scores self))) <= 0.6
    /\ np_std (stage_values (last_n 100 (Main.history_stages self))) <= 2.0.
Proof.
  intros self. unfold Main._determine_true_system_state.
  destruct (length (Main.history_A self) <? 100)%nat eqn:Hlen;
    [discriminate |].
  apply Nat.ltb_ge in Hlen.
  destruct (_ >? 0.6) eqn:Hpp; [destruct (_ >? 0.7); discriminate |].
  destruct (_ >? 0.5) eqn:Hse; [discriminate |].
  destruct (_ >? 0.8) eqn:Hte; [discriminate |].
  destruct (_ >? 2.0) eqn:Hsv; [discriminate |].
  destruct (np_mean_f (last_n 100 (Main.history_XEPTQLRI self)))
    as [mean_risk |] eqn:Hmean; cbn [ltb_f]; [| discriminate].
  destruct (mean_risk <? 0.3) eqn:Hlow; [| discriminate].
  destruct (_ >? 0.3) eqn:Hte3; [discriminate |].
  intros _. props. repeat split; try assumption.
  exists mean_risk. split; [reflexivity | assumption].
Qed.

(** Means and deviations of constant lists. *)
Lemma np_sum_repeat (c : R) (n : nat) : np_sum (repeat c n) = INR n * c.
Proof.
  induction n as [| n IH]; [cbn; lra |].
  rewrite S_INR. cbn [repeat np_sum fold_right].
  unfold np_sum in IH. rewrite IH. lra.
Qed.

Lemma np_mean_repeat (c : R) (n : nat) :
  (0 < n)%nat -> np_mean (repeat c n) = c.
Proof.
  intros Hn. unfold np_mean. rewrite np_sum_repeat, repeat_length.
  field. apply not_0_INR. lia.
Qed.

Lemma np_std_repeat (c : R) (n : nat) :
  (0 < n)%nat -> np_std (repeat c n) = 0.
Proof.
  intros Hn. unfold np_std, np_var.
  rewrite (np_mean_repeat c n Hn), map_repeat.
  replace ((c - c) * (c - c)) with 0 by lra.
  rewrite np_mean_repeat by assumption. apply sqrt_0.
Qed.

Lemma last_n_all {X : Type} (l : list X) (n : nat) :
  length l = n -> last_n n l = l.
Proof.
  intros Hl. unfold last_n. rewrite Hl, Nat.sub_diag. reflexivity.
Qed.

Lemma combine_repeat {X Y : Type} (x : X) (y : Y) (n : nat) :
  combine (repeat x n) (repeat y n) = repeat (x, y) n.
Proof. induction n as [| n IH]; [reflexivity | cbn; now rewrite IH]. Qed.

Lemma all_finite_repeat (c : R) (n : nat) :
  all_finite (repeat (Some c) n) = Some (repeat c n).
Proof. induction n as [| n IH]; [reflexivity | cbn; now rewrite IH]. Qed.

Lemma calm_system_diagnosis :
  Main._determine_true_system_state calm_system = Main.TRUE_STABILITY.
Proof.
  unfold Main._determine_true_system_state, calm_system.
  cbn [Main.history_A Main.history_anti_A Main.history_paradox_scores
       Main.history_stages Main.history_XEPTQLRI].
  rewrite !last_n_all by apply repeat_length.
  rewrite repeat_length. change (100 <? 100)%nat with false. cbv iota.
  unfold stage_values, np_mean_f.
  rewrite combine_repeat, !map_repeat, all_finite_repeat. cbn [fst snd].
  rewrite np_std_repeat by lia.
  rewrite (Rabs_val_pos 0.2) by lra. rewrite (Rabs_val_neg (-0.18)) by lra.
  cmp. cbn [andb b2r]. rewrite !np_mean_repeat by lia.
  cbn [ltb_f]. cmp. reflexivity.
Qed.

Lemma true_stability_vouches_witness :
  (100 <= length (Main.history_A calm_system))%nat
  /\ (exists mean_risk,
        np_mean_f (last_n 100 (Main.history_XEPTQLRI calm_system))
        = Some mean_risk
        /\ mean_risk < 0.3)
  /\ np_mean (map (fun x => b2r (Rabs x >? 0.8))
                  (last_n 100 (Main.history_A calm_system))) <= 0.3
  /\ np_mean (map (fun p => b2r (p >? 0.7))
                  (last_n 100 (Main.history_paradox_scores calm_system)))
     <= 0.6
  /\ np_std (stage_values (last_n 100 (Main.history_stages calm_system)))
     <= 2.0.
Proof.
  apply true_stability_vouches. apply calm_system_diagnosis.
Defined.

(** Evaluates the string tests on explicit strings. *)
Ltac eval_strings :=
  repeat match goal with
    | |- context [str_in ?a ?b] =>
        let v := eval vm_compute in (str_in a b) in
        change (str_in a b) with v
    | |- context [String.eqb ?a ?b] =>
        let v := eval vm_compute in (String.eqb a b) in
        change (String.eqb a b) with v
    end.

Lemma choose_advice_cases (diagnosis : Main.true_state) (m : Main.metrics) :
  Main.choose_advice (Main.true_state_name diagnosis) m
  = match diagnosis with
    | Main.PERMANENT_PARADOXICAL_TRANSCENDENCE =>
        Main.advice_paradoxical_transcendence
    | Main.FALSE_STABILITY_REGIME => Main.advice_false_stability
    | Main.SIMULTANEOUS_EXTREMITY_REGIME => Main.advice_simultaneous_extremity
    | _ => advice_by_metrics diagnosis m
    end.
Proof.
  unfold Main.choose_advice, advice_by_metrics.
  destruct diagnosis; cbn [Main.true_state_name]; eval_strings;
    cbv iota; reflexivity.
Qed.

(** X14.  How the recommendations follow the diagnosis.  Only three of
    the nine diagnoses pick their own advice by name:
    PERMANENT_PARADOXICAL_TRANSCENDENCE, FALSE_STABILITY_REGIME and
    SIMULTANEOUS_EXTREMITY_REGIME.  Every other one, among them
    INTERMITTENT_PARADOXICAL_STATE and INSUFFICIENT_DATA, is advised by the
    metrics alone: extreme-risk advice when the maximal risk index exceeds
    2.0, else deception advice when the deception index exceeds 0.5, else
    the true-stability advice for TRUE_STABILITY and the
    dynamic-equilibrium advice for all the rest. *)
Theorem advice_by_diagnosis :
  forall (diagnosis : Main.true_state) (m : Main.metrics),
    Main.choose_advice (Main.true_state_name diagnosis) m
    = match diagnosis with
      | Main.PERMANENT_PARADOXICAL_TRANSCENDENCE =>
          Main.advice_paradoxical_transcendence
      | Main.FALSE_STABILITY_REGIME => Main.advice_false_stability
      | Main.SIMULTANEOUS_EXTREMITY_REGIME =>
          Main.advice_simultaneous_extremity
      | _ =>
          if gtb_f (Main.max_XEPTQLRI m) 2.0 then Main.advice_extreme_risk
          else if Main.stability_deception m >? 0.5 then Main.advice_deception
          else match diagnosis with
               | Main.TRUE_STABILITY => Main.advice_true_stability
               | _ => Main.advice_dynamic_equilibrium
               end
      end.
Proof.
  intros diagnosis m. rewrite choose_advice_cases.
  destruct diagnosis; reflexivity.
Qed.

(** X15.  The recommendations are never empty: the list holds between 4
    and 7 lines, the block of the chosen advice followed by at most two
    formatted lines. *)
Theorem recommendations_between_4_and_7 :
  forall (true_state : string) (m : Main.metrics) (p : Main.paradox_analysis),
    (4 <= length (Main._generate_enhanced_recommendations true_state m p)
     <= 7)%nat.
Proof.
  intros ts m p. unfold Main._generate_enhanced_recommendations.
  rewrite !length_app.
  destruct (Main.choose_advice ts m); cbn [Main.advice_lines length];
    destruct (10 <? _)%nat; destruct (_ >? 0.3); cbn [length]; lia.
Qed.

Lemma count_f_cons (test : R -> bool) (v : option R) (l : list (option R)) :
  count_f test (v :: l)
  = ((match v with Some x => if test x then 1 else 0 | None => 0 end)
     + count_f test l)%nat.
Proof.
  unfold count_f. cbn [filter].
  destruct v as [x |]; [destruct (test x) |]; reflexivity.
Qed.

(** X16.  The four risk levels of the report partition the finite risk
    values: low, medium, high and extreme add up to the number of recorded
    values that are not nan, each such value falling in exactly one
    level. *)
Theorem risk_levels_partition :
  forall self : Main.system,
    (Main.low (Main.report_risk_levels self)
     + Main.medium (Main.report_risk_levels self)
     + Main.high (Main.report_risk_levels self)
     + Main.extreme (Main.report_risk_levels self))%nat
    = count_f (fun _ => true) (Main.history_XEPTQLRI self).
Proof.
  intros self. unfold Main.report_risk_levels.
  cbn [Main.low Main.medium Main.high Main.extreme].
  induction (Main.history_XEPTQLRI self) as [| v l IH]; [reflexivity |].
  rewrite !count_f_cons, <- IH.
  destruct v as [x |]; [| lia].
  unfold ltb, geb.
  destruct (Rlt_dec x 0.5); destruct (Rle_dec 0.5 x);
    destruct (Rlt_dec x 1.0); destruct (Rle_dec 1.0 x);
    destruct (Rlt_dec x 2.0); destruct (Rle_dec 2.0 x);
    cbn [andb]; try lia; exfalso; lra.
Qed.

(** X17.  The stage distribution of the report accounts for every
    recorded step: its ten counts add up to the number of recorded
    stages. *)
Theorem stage_distribution_total :
  forall self : Main.system,
    list_sum (map snd (Main.report_stage_distribution self))
    = length (Main.history_stages self).
Proof.
  intros self. unfold Main.report_stage_distribution, Main.all_stages.
  cbn [map snd list_sum fold_right].
  induction (Main.history_stages self) as [| s l IH]; [reflexivity |].
  cbn [length]. rewrite <- IH.
  destruct s; cbn; lia.
Qed.

(** X18.  The paradox analysis of the report splits the logged events by
    type without loss: the counts of SIMULTANEOUS_EXTREMITY, FALSE_STABILITY
    and META_PARADOX events add up to the total. *)
Theorem paradox_counts_total :
  forall self : Main.system,
    (Main.simultaneous_extremity_events (Main.report_paradox_analysis self)
     + Main.false_stability_events (Main.report_paradox_analysis self)
     + Main.meta_paradox_events (Main.report_paradox_analysis self))%nat
    = Main.total_paradox_events (Main.report_paradox_analysis self).
Proof.
  intros self. unfold Main.report_paradox_analysis, Main.events_of_type.
  cbn [Main.simultaneous_extremity_events Main.false_stability_events
       Main.meta_paradox_events Main.total_paradox_events].
  induction (Main.paradox_events self) as [| e l IH]; [reflexivity |].
  cbn [filter length]. rewrite <- IH.
  destruct (Main.pe_type e); cbn [Main.paradox_type_eqb length]; lia.
Qed.

(** ** The tension of the denoising variant *)

(** X19.  The tension depends on the magnitudes of the two poles only and
    not on their order: swapping them, or flipping the sign of either,
    leaves it unchanged. *)
Theorem tension_symmetric_and_even :
  forall state anti_state : R,
    Denoise._calculate_tension state anti_state
    = Denoise._calculate_tension anti_state state
    /\ Denoise._calculate_tension (- state) anti_state
       = Denoise._calculate_tension state anti_state
    /\ Denoise._calculate_tension state (- anti_state)
       = Denoise._calculate_tension state anti_state
    /\ Denoise._calculate_tension (Rabs state) (Rabs anti_state)
       = Denoise._calculate_tension state anti_state.
Proof.
  intros a b. unfold Denoise._calculate_tension.
  repeat split.
  - rewrite (Rmult_comm b a), (andb_comm (Rabs b >? 0.8)),
      (orb_comm (Rabs b >? 0.6)). reflexivity.
  - rewrite Rabs_Ropp, Ropp_mult_distr_l_reverse, Rabs_Ropp. reflexivity.
  - rewrite Rabs_Ropp, Ropp_mult_distr_r_reverse, Rabs_Ropp. reflexivity.
  - rewrite !Rabs_Rabsolu, <- Rabs_mult, Rabs_Rabsolu. reflexivity.
Qed.




(** ** Steps and reports of the denoising variant *)

Lemma np_clip_idempotent (x lo hi : R) :
  lo <= hi -> np_clip (np_clip x lo hi) lo hi = np_clip x lo hi.
Proof.
  intros Hle. apply np_clip_inside. apply np_clip_bounds. exact Hle.
Qed.

Lemma classify_tau6_iff (self : Denoise.system) (t a b : R) :
  Denoise._classify_stage self t a b = tau6
  <-> Denoise.paradox_rule t a b = true.
Proof.
  unfold Denoise._classify_stage.
  destruct (Denoise.paradox_rule t a b); [tauto |].
  split; [| discriminate].
  destruct (Denoise.false_stability_rule t a b); [discriminate |].
  destruct (_ && _); [discriminate |].
  pose proof (denoise_tension_band_low self t) as Hin. cbn [In] in Hin.
  intros Heq. rewrite Heq in Hin.
  repeat (destruct Hin as [Hin | Hin]; [discriminate |]). contradiction.
Qed.

Section DenoiseSteps.

Context {G : Type} `{RandomState G}.

Lemma simulate_step_fields (self : Denoise.system) (x : R) (g : G) :
  let out := fst (Denoise.simulate_step self x g) in
  let r := snd out in
  Denoise.A (fst out) = np_clip x (-1.5) 1.5
  /\ Denoise.sr_A r = np_clip x (-1.5) 1.5
  /\ Denoise.sr_tension r
     = Denoise._calculate_tension (Denoise.sr_A r) (Denoise.sr_anti_A r)
  /\ Denoise.sr_stage_idx r
     = Denoise._classify_stage self (Denoise.sr_tension r) (Denoise.sr_A r)
         (Denoise.sr_anti_A r)
  /\ (Denoise.horizon (fst out), Denoise.aufhebung_threshold (fst out),
      Denoise.system_name (fst out))
     = (Denoise.horizon self, Denoise.aufhebung_threshold self,
        Denoise.system_name self)
  /\ Denoise.history_A (fst out) = Denoise.history_A self ++ [Denoise.sr_A r]
  /\ Denoise.history_anti_A (fst out)
     = Denoise.history_anti_A self ++ [Denoise.sr_anti_A r]
  /\ Denoise.history_tension (fst out)
     = Denoise.history_tension self ++ [Denoise.sr_tension r]
  /\ Denoise.history_XEPTQLRI (fst out)
     = Denoise.history_XEPTQLRI self ++ [Denoise.sr_XEPTQLRI r]
  /\ Denoise.history_stages (fst out)
     = Denoise.history_stages self ++ [Denoise.sr_stage_idx r]
  /\ Denoise.history_stage_names (fst out)
     = Denoise.history_stage_names self ++ [Denoise.sr_stage r]
  /\ length (Denoise.paradox_events (fst out))
     = (length (Denoise.paradox_events self)
        + (if stage_eq_dec (Denoise.sr_stage_idx r) tau6 then 1 else 0))%nat.
Proof.
  cbv zeta. unfold Denoise.simulate_step, bind, ret.
  cbn [Denoise.A Denoise.history_A Denoise.aufhebung_threshold
       Denoise.horizon Denoise.system_name Denoise.history_anti_A
       Denoise.history_tension Denoise.history_XEPTQLRI
       Denoise.history_stages Denoise.history_stage_names
       Denoise.paradox_events Denoise.risk_events].
  match goal with
  | |- context [Denoise._dialectical_negation ?s ?a g] =>
      destruct (Denoise._dialectical_negation s a g) as [n g1];
      destruct (Denoise._calculate_XEPTQLRI s
                  (Denoise._calculate_tension a n) a n g1) as [v g2]
  end.
  match goal with
  | |- context [Denoise.stages ?i] =>
      destruct (Denoise.stages i) as [[name color] icon]
  end.
  cbn [fst snd Denoise.A Denoise.history_A Denoise.aufhebung_threshold
       Denoise.horizon Denoise.system_name Denoise.history_anti_A
       Denoise.history_tension Denoise.history_XEPTQLRI
       Denoise.history_stages Denoise.history_stage_names
       Denoise.paradox_events Denoise.sr_A Denoise.sr_anti_A
       Denoise.sr_tension Denoise.sr_XEPTQLRI Denoise.sr_stage
       Denoise.sr_stage_idx].
  repeat split.
  rewrite length_app. destruct (stage_eq_dec _ tau6); reflexivity.
Qed.

End DenoiseSteps.

(** X21.  One step of the denoising variant appends exactly one entry to
    every history and leaves the horizon, the threshold and the name alone;
    it sees its input only through the clamp to [-1.5, 1.5], so an input
    and its clamped value give the same step; and it logs a paradox event
    exactly when the recorded poles and tension satisfy the paradox rule
    (both magnitudes above 0.85, tension below 0.4). *)
Theorem denoise_step_effects :
  forall (G : Type) (RS : RandomState G) (self : Denoise.system)
         (external_A_input : R) (g : G) (n : nat),
    recorded_steps self n ->
    let out := fst (Denoise.simulate_step self external_A_input g) in
    recorded_steps (fst out) (S n)
    /\ (Denoise.horizon (fst out), Denoise.aufhebung_threshold (fst out),
        Denoise.system_name (fst out))
       = (Denoise.horizon self, Denoise.aufhebung_threshold self,
          Denoise.system_name self)
    /\ Denoise.simulate_step self (np_clip external_A_input (-1.5) 1.5) g
       = Denoise.simulate_step self external_A_input g
    /\ (length (Denoise.paradox_events (fst out))
        = S (length (Denoise.paradox_events self))
        <-> Denoise.paradox_rule (Denoise.sr_tension (snd out))
              (Denoise.sr_A (snd out)) (Denoise.sr_anti_A (snd out)) = true).
Proof.
  intros G RS self x g n Hn out.
  destruct (simulate_step_fields self x g)
    as [_ [_ [_ [Hstage [Hcfg [HA [HB [HT [HX [HS [HN Hev]]]]]]]]]]].
  fold out in Hstage, Hcfg, HA, HB, HT, HX, HS, HN, Hev.
  destruct Hn as [H1 [H2 [H3 [H4 [H5 H6]]]]].
  split; [| split; [| split]].
  - unfold recorded_steps. rewrite HA, HB, HT, HX, HS, HN, !length_app.
    cbn [length]. repeat split; lia.
  - exact Hcfg.
  - unfold Denoise.simulate_step.
    rewrite np_clip_idempotent by lra. reflexivity.
  - rewrite Hev, <- classify_tau6_iff, <- Hstage.
    destruct (stage_eq_dec _ tau6); split; intros; try lia; congruence.
Qed.

Lemma denoise_step_effects_witness :
  let out := fst (Denoise.simulate_step rising_denoise_system 1.7
                    wide_noise_draws) in
  recorded_steps (fst out) 22
  /\ (Denoise.horizon (fst out), Denoise.aufhebung_threshold (fst out),
      Denoise.system_name (fst out))
     = (Denoise.horizon rising_denoise_system,
        Denoise.aufhebung_threshold rising_denoise_system,
        Denoise.system_name rising_denoise_system)
  /\ Denoise.simulate_step rising_denoise_system (np_clip 1.7 (-1.5) 1.5)
       wide_noise_draws
     = Denoise.simulate_step rising_denoise_system 1.7 wide_noise_draws
  /\ (length (Denoise.paradox_events (fst out))
      = S (length (Denoise.paradox_events rising_denoise_system))
      <-> Denoise.paradox_rule (Denoise.sr_tension (snd out))
            (Denoise.sr_A (snd out)) (Denoise.sr_anti_A (snd out)) = true).
Proof.
  apply (denoise_step_effects tape replay rising_denoise_system 1.7
           wide_noise_draws 21).
  repeat split.
Defined.

(** X22.  The recommendations of the denoising report are never empty and
    hold at most three entries; the fallback entry only ever stands alone;
    and the optimal-performance entry never comes with the
    increased-paradoxicality one. *)
Theorem denoise_recommendations_shape :
  forall (paradox_time false_stab_time : R)
         (max_XEPTQLRI mean_XEPTQLRI : option R),
    let recs := Denoise._generate_recommendations paradox_time false_stab_time
                  max_XEPTQLRI mean_XEPTQLRI in
    (1 <= length recs <= 3)%nat
    /\ (In Denoise.NormalBehaviour recs -> recs = [Denoise.NormalBehaviour])
    /\ ~ (In Denoise.OptimalPerformance recs
          /\ In Denoise.IncreasedParadoxicality recs).
Proof.
  intros p f mx mn. cbv zeta. unfold Denoise._generate_recommendations.
  destruct (p >? 30) eqn:Hp30; destruct (f >? 40);
    destruct (gtb_f mx 2.0); destruct (ltb_f mn 0.3);
    destruct (p <? 10) eqn:Hp10; cbn [andb app length In];
    props; try (exfalso; lra);
    repeat split; try lia; try (intros _; reflexivity);
    try (intros Hin; exfalso;
         repeat (destruct Hin as [Hin | Hin]; [discriminate |]); exact Hin);
    try (intros [Ho Hi]; try lra;
         repeat (destruct Ho as [Ho | Ho]; [discriminate |]);
         try contradiction;
         repeat (destruct Hi as [Hi | Hi]; [discriminate |]);
         try contradiction).
Qed.









Lemma report_after_steps (self : Denoise.system) (n : nat) :
  recorded_steps self n ->
  (0 < n)%nat ->
  exists r, Denoise.get_detailed_report self = inl (Denoise.Detailed r).
Proof.
  intros [_ [_ [_ [HX [HS HN]]]]] Hn. unfold Denoise.get_detailed_report.
  destruct (Denoise.history_XEPTQLRI self) as [| v vs] eqn:Hv;
    [cbn in HX; lia |].
  destruct (Denoise.verdict _ _ _ _) as [status risk].
  rewrite <- (length_rev (Denoise.history_stage_names self)) in HN.
  destruct (rev (Denoise.history_stage_names self)) as [| name names];
    [cbn in HN; lia |].
  rewrite <- (length_rev (Denoise.history_stages self)) in HS.
  destruct (rev (Denoise.history_stages self)) as [| idx idxs];
    [cbn in HS; lia |].
  eexists. reflexivity.
Qed.

(** ** The loop that drives the denoising variant *)

Section Driving.

Context {G : Type} `{RandomState G}.

(** What the driving loop keeps true of the object. *)
Lemma step_keeps_bounds (self : Denoise.system) (x : R) (g : G) (n : nat) :
  Denoise.aufhebung_threshold self = 0.8 ->
  recorded_steps self n ->
  bounded_denoise_histories self ->
  let self' := fst (fst (Denoise.simulate_step self x g)) in
  Denoise.aufhebung_threshold self' = 0.8
  /\ recorded_steps self' (S n)
  /\ bounded_denoise_histories self'.
Proof.
  intros Hthr Hn [BA [BB [BT BX]]] self'.
  assert (Hne : Denoise.aufhebung_threshold self <> 0) by lra.
  pose proof (denoise_step_bounded self x g Hne) as [RA [RB [RT RX]]].
  destruct (simulate_step_fields self x g)
    as [_ [_ [_ [_ [Hcfg [HA [HB [HT [HX [HS [HN _]]]]]]]]]]].
  fold self' in Hcfg, HA, HB, HT, HX, HS, HN.
  destruct Hn as [H1 [H2 [H3 [H4 [H5 H6]]]]].
  split; [| split].
  - injection Hcfg as _ Ht _. rewrite Ht. exact Hthr.
  - unfold recorded_steps. rewrite HA, HB, HT, HX, HS, HN, !length_app.
    cbn [length]. repeat split; lia.
  - unfold bounded_denoise_histories. rewrite HA, HB, HT, HX.
    repeat split; apply Forall_app; split; try assumption;
      constructor; auto.
Qed.

Lemma drive_keeps_bounds (passes : nat) (A_value noise_level : R)
  (self : Denoise.system) (g : G) (n : nat) :
  0 <= noise_level ->
  Denoise.aufhebung_threshold self = 0.8 ->
  recorded_steps self n ->
  bounded_denoise_histories self ->
  exists system,
    fst (Denoise.drive passes A_value noise_level self g) = Ok system
    /\ Denoise.aufhebung_threshold system = 0.8
    /\ recorded_steps system (n + passes)
    /\ bounded_denoise_histories system.
Proof.
  intros Hnl. revert self g n.
  induction passes as [| passes IH]; intros self g n Hthr Hn Hb.
  - exists self. rewrite Nat.add_0_r. cbn. auto.
  - cbn [Denoise.drive]. unfold bind, np_random_normal.
    rewrite (ltb_false noise_level 0) by lra.
    unfold bind, ret. destruct (np_random_randn g) as [z g1].
    pose proof (step_keeps_bounds self (A_value + (0 + noise_level * z)) g1 n
                  Hthr Hn Hb) as Hstep.
    cbv zeta in Hstep.
    destruct (Denoise.simulate_step self (A_value + (0 + noise_level * z)) g1)
      as [[self' r] g2].
    cbn [fst] in Hstep |- *. destruct Hstep as [Hthr' [Hn' Hb']].
    destruct (IH self' g2 (S n) Hthr' Hn' Hb') as [system [Hok Hrest]].
    exists system. rewrite Nat.add_succ_r. split; assumption.
Qed.

End Driving.

(** X24.  Driving one system as [run_full_analysis] does.  For a mean
    absolute error that is not negative, the loop never raises and leaves
    an object with exactly [xen_steps] recorded steps, the threshold 0.8,
    every A and anti_A within [-1.5, 1.5], every tension within [0,1] and
    every risk index finite within [0, 3.5]; and for a positive number of
    steps its report is a full report, never the error entry, so that the
    lookups [run_full_analysis] makes in it succeed. *)
Theorem analyse_timestep_records :
  forall (G : Type) (RS : RandomState G) (mae : R) (xen_steps : Z)
         (name : string) (g : G),
    0 <= mae ->
    exists system,
      fst (Denoise.analyse_timestep mae xen_steps name g) = Ok system
      /\ Denoise.aufhebung_threshold system = 0.8
      /\ recorded_steps system (Z.to_nat xen_steps)
      /\ bounded_denoise_histories system
      /\ ((0 < xen_steps)%Z ->
          exists r, Denoise.get_detailed_report system
                    = inl (Denoise.Detailed r)).
Proof.
  intros G RS mae xen_steps name g Hmae.
  unfold Denoise.analyse_timestep.
  destruct (drive_keeps_bounds (Z.to_nat xen_steps)
              (np_clip (1.0 - mae * 8) (-1.0) 1.0) (0.05 + mae * 0.1)
              (Denoise.__init__ (np_clip (1.0 - mae * 8) (-1.0) 1.0) xen_steps
                 0.8 name) g 0)
    as [system [Hok [Hthr [Hn Hb]]]].
  - lra.
  - reflexivity.
  - repeat split.
  - repeat split; constructor.
  - exists system. cbn [Nat.add] in Hn.
    split; [exact Hok |]. split; [exact Hthr |]. split; [exact Hn |].
    split; [exact Hb |].
    intros Hpos.
    apply (report_after_steps system (Z.to_nat xen_steps) Hn). lia.
Qed.

Lemma analyse_timestep_records_witness :
  exists system,
    fst (Denoise.analyse_timestep 0.05 100 "LSTM_Step_0" wide_noise_draws)
    = Ok system
    /\ Denoise.aufhebung_threshold system = 0.8
    /\ recorded_steps system (Z.to_nat 100)
    /\ bounded_denoise_histories system
    /\ ((0 < 100)%Z ->
        exists r, Denoise.get_detailed_report system
                  = inl (Denoise.Detailed r)).
Proof.
  apply analyse_timestep_records. lra.
Defined.




